(** * PyBuilder: plugin resolution chain and declarative graph assembly

    A shallow embedding of [pybuilder/pluginloader.py] and of the plugin
    bookkeeping and the two-pass scan of [pybuilder/reactor.py].

    Python objects with mutable state (the logger, the interpreter's import
    machinery, the file system the installer writes to, the execution
    manager, the reactor's plugin list) are threaded explicitly through a
    state-and-exception monad.  An exception leaves the state as it was when
    it was raised: nothing is rolled back unless the code does so itself.

    Importing a plugin module runs the module's code, and that code calls
    [use_plugin], which comes back to [Reactor.require_plugin] through
    [Reactor.current_instance()]: the import of the loaders is therefore a
    step of the whole interpreter, the reactor included, and the reactor's
    functions are defined by recursion on the depth of nested imports the
    interpreter still allows. *)

From Stdlib Require Import ZArith Ascii.
From stdpp Require Import base option list strings gmap sorting.

Set Default Proof Using "Type".

(** ** Strings *)

Definition startswith (s p : string) : bool := String.prefix p s.

(** [s.replace(old, new)] for a non-empty [old]: every non-overlapping
    occurrence, left to right.  [skip] counts the characters of a matched
    occurrence that are still to be dropped. *)
Fixpoint replace_from (old new : string) (skip : nat) (s : string) : string :=
  match s with
  | EmptyString => EmptyString
  | String c s' =>
      match skip with
      | S k => replace_from old new k s'
      | O =>
          if String.prefix old s
          then new +:+ replace_from old new (String.length old - 1) s'
          else String c (replace_from old new 0 s')
      end
  end.

Definition str_replace (s old new : string) : string := replace_from old new 0 s.

(** Python truthiness of an optional string argument ([None] and [""] are
    false). *)
Definition truthy (o : option string) : bool :=
  match o with
  | Some s => negb (String.eqb s "")
  | None => false
  end.

Definition newline : string := String (Ascii.ascii_of_nat 10) EmptyString.

Definition PYPI_PLUGIN_PROTOCOL : string := "pypi:".
Definition VCS_PLUGIN_PROTOCOL : string := "vcs:".

(** ** Values exchanged with the packaging library and the execution module *)

(** [packaging.version.Version(text)] and
    [packaging.specifiers.SpecifierSet(text, prereleases)]: the objects are
    kept as the arguments they were built from; what they mean is decided by
    the library (see [Externals]). *)
Record Version := mkVersion { version_text : string }.
Record SpecifierSet := mkSpecifierSet { specifiers : string; prereleases : bool }.

(** What a dependency points at: a task name, or a task function.  Of a
    function only what [normalize_candidate_name] reads is kept. *)
Inductive Target :=
| ByName (name : string)
| ByRef (name_attribute : option string) (dunder_name : option string).

(** [TaskDependency(name, optional=False)] *)
Record TaskDependency := mkTaskDependency { td_target : Target; td_optional : bool }.

(** ** Exceptions *)

Inductive PyError :=
| MissingPluginException (plugin : string) (message : string)
| IncompatiblePluginException (plugin : string) (required : SpecifierSet) (actual : Version)
| UnspecifiedPluginNameException (plugin : string)
| InvalidSpecifier (text : string)
| TypeError (message : string)
| UnboundLocalError (variable : string)
| ValueError (message : string)
| RecursionError (message : string)
| CollaboratorError (message : string).

Definition is_missing (e : PyError) : bool :=
  match e with
  | MissingPluginException _ _ => true
  | _ => false
  end.

Inductive result (A : Type) :=
| Ok (a : A)
| Raise (e : PyError).
Arguments Ok {A} a.
Arguments Raise {A} e.

(** ** The logger *)

Inductive Level := DEBUG | INFO | ERROR.

Inductive LogArg :=
| AStr (s : string)
| AName (n : option string)
| ADeps (deps : list TaskDependency)
| AErr (e : PyError).

(** One call of the logger: the message (a [%] or [format] template) and
    its arguments. *)
Record LogRecord := mkLog { log_level : Level; log_message : string; log_args : list LogArg }.

(** ** State and exceptions *)

Definition M (S A : Type) : Type := S -> result A * S.

Definition ret {S A} (a : A) : M S A := fun s => (Ok a, s).
Definition raise {S A} (e : PyError) : M S A := fun s => (Raise e, s).
Definition bind {S A B} (m : M S A) (k : A -> M S B) : M S B :=
  fun s =>
    match m s with
    | (Ok a, s') => k a s'
    | (Raise e, s') => (Raise e, s')
    end.

(** [try: body / except <those e with handler e = Some h>: h]; an exception
    the clause does not name propagates. *)
Definition try_except {S A} (body : M S A) (handler : PyError -> option (M S A)) : M S A :=
  fun s =>
    match body s with
    | (Ok a, s') => (Ok a, s')
    | (Raise e, s') =>
        match handler e with
        | Some h => h s'
        | None => (Raise e, s')
        end
    end.

Declare Scope py_scope.
Delimit Scope py_scope with py.
Notation "x <- m ;; k" := (bind m (fun x => k))
  (at level 100, m at next level, right associativity) : py_scope.
Notation "m ;;; k" := (bind m (fun _ => k))
  (at level 100, right associativity) : py_scope.
Local Open Scope py_scope.

(** ** Modules as the scan sees them *)

(** A [@depends] / [@dependents] entry: a target, or [optional(t1, ..., tn)],
    which yields its targets when called. *)
Inductive DepDecl :=
| Plain (t : Target)
| Optional (ts : list Target).

(** A top-level attribute of a module, with the attributes the reactor
    probes ([None] where [hasattr] is false). *)
Record Candidate := mkCandidate {
  NAME_ATTRIBUTE : option string;
  dunder_name : option string;
  TASK_ATTRIBUTE : option bool;
  DEPENDS_ATTRIBUTE : option (list DepDecl);
  DEPENDENTS_ATTRIBUTE : option (list DepDecl);
  DESCRIPTION_ATTRIBUTE : option string;
  ACTION_ATTRIBUTE : option bool;
  BEFORE_ATTRIBUTE : option (list string);
  AFTER_ATTRIBUTE : option (list string);
  ONLY_ONCE_ATTRIBUTE : option bool;
  TEARDOWN_ATTRIBUTE : option bool;
  INITIALIZER_ATTRIBUTE : option bool;
  ENVIRONMENTS_ATTRIBUTE : option (list string)
}.

(** An imported module: its [pyb_version] attribute and [dir(module)] with
    the value of each name. *)
Record PluginModule := mkModule {
  module_pyb_version : option string;
  module_dir : list (string * Candidate)
}.

(** What [__import__] comes to: the module, an [ImportError], or any
    other exception the code of the module let out. *)
Inductive Imported :=
| Module_ (m : PluginModule)
| ImportError (message : string)
| ImportRaises (e : PyError).

(** What the code of a module does with the reactor while the module is
    imported: it calls [use_plugin] and goes on according to how the call
    ended, it raises, or it does the rest of its work, which is the import
    the world outside describes. *)
Inductive Body :=
| Rest
| Raises (e : PyError)
| Use (plugin : string) (version plugin_module_name : option string)
      (next : result unit -> Body).

(** The loaders of [pluginloader.py], as objects. *)
#[local] Unset Elimination Schemes.
Inductive Loader :=
| Base
| Builtin
| ThirdParty
| Downloading
| Dispatching (loader : list Loader).
#[local] Set Elimination Schemes.

(** ** Collaborators outside the repository *)

Class Externals := {
  World : Type;
  Project : Type;
  (** [__import__(name)] followed by [sys.modules[name]]; the code of the
      module runs with the logger in reach *)
  import_module : string -> list LogRecord * World -> Imported * (list LogRecord * World);
  (** [tempfile.NamedTemporaryFile(delete=False)]: the file's name *)
  NamedTemporaryFile : World -> string * World;
  (** [execute_command(cmd, out_file, error_file_name=out_file, cwd=".", shell=False)] *)
  execute_command : list string -> string -> World -> Z * World;
  (** [read_file(name)]: the lines of the file *)
  read_file : string -> World -> list string;
  (** [pybuilder.__version__] *)
  pyb_version : string;
  (** whether [SpecifierSet(text, ...)] accepts [text] *)
  specifier_valid : string -> bool;
  (** [SpecifierSet.contains] *)
  contains : SpecifierSet -> Version -> bool
}.

Section PluginLoader.
Context `{X : Externals}.

Definition PYB_VERSION : Version :=
  if String.eqb pyb_version "${dist_version}"
  then mkVersion "0.0.1.dev0"
  else mkVersion pyb_version.

(** What a loader can reach: its logger and the world outside. *)
Record Env := mkEnv { logger : list LogRecord; world : World }.

Definition log (lvl : Level) (msg : string) (args : list LogArg) : M Env unit :=
  fun e => (Ok tt, mkEnv (logger e ++ [mkLog lvl msg args]) (world e)).

Definition in_world {A} (f : World -> A * World) : M Env A :=
  fun e => let '(a, w) := f (world e) in (Ok a, mkEnv (logger e) w).

Definition importing (name : string) : M Env Imported :=
  fun e =>
    let '(imported, (lg, w)) := import_module name (logger e, world e) in
    (Ok imported, mkEnv lg w).

Definition PluginLoader : Type :=
  option Project -> string -> option string -> option string -> M Env (option PluginModule).

(** [PluginLoader.load_plugin]: [pass]. *)
Definition BasePluginLoader : PluginLoader :=
  fun project name version plugin_module_name => ret None.

Definition _check_plugin_version (plugin_module : PluginModule) (plugin_name : string)
  : M Env unit :=
  if truthy (module_pyb_version plugin_module) then
    let text := default "" (module_pyb_version plugin_module) in
    if specifier_valid text then
      let required_pyb_version := mkSpecifierSet text true in
      if negb (contains required_pyb_version PYB_VERSION)
      then raise (IncompatiblePluginException plugin_name required_pyb_version PYB_VERSION)
      else ret tt
    else raise (InvalidSpecifier text)
  else ret tt.

Definition _load_plugin (plugin_module_name plugin_name : string) : M Env PluginModule :=
  imported <- importing plugin_module_name ;;
  match imported with
  | Module_ plugin_module =>
      _check_plugin_version plugin_module plugin_name ;;;
      ret plugin_module
  | ImportError import_error =>
      raise (MissingPluginException plugin_name import_error)
  | ImportRaises e => raise e
  end.

Definition BuiltinPluginLoader : PluginLoader :=
  fun project name version plugin_module_name =>
    log DEBUG "Trying to load builtin plugin '%s'" [AStr name] ;;;
    let builtin_plugin_name :=
      if truthy plugin_module_name then default "" plugin_module_name
      else "pybuilder.plugins." +:+ name +:+ "_plugin" in
    plugin_module <- _load_plugin builtin_plugin_name name ;;
    log DEBUG "Found builtin plugin '%s'" [AStr builtin_plugin_name] ;;;
    ret (Some plugin_module).

Definition ThirdPartyPluginLoader : PluginLoader :=
  fun project name version plugin_module_name =>
    thirdparty_plugin <-
      (if startswith name PYPI_PLUGIN_PROTOCOL then
         ret (str_replace name PYPI_PLUGIN_PROTOCOL "")
       else if startswith name VCS_PLUGIN_PROTOCOL then
         if negb (truthy plugin_module_name)
         then raise (UnspecifiedPluginNameException name)
         else ret (default "" plugin_module_name)
       else ret name) ;;
    log DEBUG "Trying to load third party plugin '%s'" [AStr thirdparty_plugin] ;;;
    plugin_module <- _load_plugin thirdparty_plugin name ;;
    log DEBUG "Found third party plugin '%s'" [AStr thirdparty_plugin] ;;;
    ret (Some plugin_module).

Definition _install_external_plugin (name : string) (version plugin_module_name : option string)
  : M Env unit :=
  if negb (startswith name PYPI_PLUGIN_PROTOCOL) && negb (startswith name VCS_PLUGIN_PROTOCOL)
  then raise (MissingPluginException name
                "Only plugins starting with '('pypi:', 'vcs:')' are currently supported")
  else
    pip_package <-
      (if startswith name PYPI_PLUGIN_PROTOCOL then
         let pip_package := str_replace name PYPI_PLUGIN_PROTOCOL "" in
         ret (if truthy version then pip_package +:+ default "" version else pip_package)
       else if startswith name VCS_PLUGIN_PROTOCOL then
         ret (str_replace name VCS_PLUGIN_PROTOCOL "")
       else raise (UnboundLocalError "pip_package")) ;;
    log_file_name <- in_world NamedTemporaryFile ;;
    let install_cmd := ["pip"; "install"; "--upgrade"; pip_package] in
    result <- in_world (execute_command install_cmd log_file_name) ;;
    if negb (result =? 0)%Z then
      (fun e =>
         log ERROR ("The following pip error was encountered:" +:+ newline
                    +:+ String.concat "" (read_file log_file_name (world e))) [] e) ;;;
      raise (MissingPluginException name ("Failed to install plugin from " +:+ pip_package))
    else ret tt.

Definition display_name (name : string) (version : option string) : string :=
  name +:+ (if truthy version then " version " +:+ default "" version else "").

Definition DownloadingPluginLoader : PluginLoader :=
  fun project name version plugin_module_name =>
    log INFO "Downloading missing plugin {0}" [AStr (display_name name version)] ;;;
    installed <-
      try_except
        (_install_external_plugin name version plugin_module_name ;;;
         log INFO "Installed plugin {0}." [AStr (display_name name version)] ;;;
         ret true)
        (fun e =>
           if is_missing e then
             Some (log ERROR "Could not install plugin {0}: {1}."
                     [AStr (display_name name version); AErr e] ;;;
                   ret false)
           else None) ;;
    if installed
    then ThirdPartyPluginLoader project name version plugin_module_name
    else ret None.

(** The loop of [DispatchingPluginLoader.load_plugin], with [last_problem]
    as it stands on entry; [raise None] is a [TypeError]. *)
Fixpoint dispatch (loader : list PluginLoader) (last_problem : option PyError)
    (project : option Project) (name : string) (version plugin_module_name : option string)
  : M Env (option PluginModule) :=
  match loader with
  | [] =>
      match last_problem with
      | Some e => raise e
      | None => raise (TypeError "exceptions must derive from BaseException")
      end
  | l :: rest =>
      try_except (l project name version plugin_module_name)
        (fun e =>
           if is_missing e
           then Some (dispatch rest (Some e) project name version plugin_module_name)
           else None)
  end.

Definition DispatchingPluginLoader (loader : list PluginLoader) : PluginLoader :=
  fun project name version plugin_module_name =>
    dispatch loader None project name version plugin_module_name.

(** [loader.load_plugin] *)
Fixpoint load_plugin (loader : Loader) : PluginLoader :=
  match loader with
  | Base => BasePluginLoader
  | Builtin => BuiltinPluginLoader
  | ThirdParty => ThirdPartyPluginLoader
  | Downloading => DownloadingPluginLoader
  | Dispatching loaders => DispatchingPluginLoader (map load_plugin loaders)
  end.

(** The code of the modules that can be imported.  [use_plugin] is code of
    [pybuilder.core]: it calls
    [Reactor.current_instance().require_plugin(name, version, plugin_module_name)]. *)
Class PluginCode := {
  module_body : string -> World -> Body
}.

End PluginLoader.

(** ** The execution manager and what is registered with it *)

Record Task := mkTask {
  task_name : option string;
  task_callable : Candidate;
  task_dependencies : list TaskDependency;
  task_description : string
}.

Record Action := mkAction {
  action_name : option string;
  action_callable : Candidate;
  action_before : option (list string);
  action_after : option (list string);
  action_description : string;
  action_only_once : bool;
  action_teardown : bool
}.

Record Initializer := mkInitializer {
  initializer_name : option string;
  initializer_callable : Candidate;
  initializer_environments : list string;
  initializer_description : string
}.

(** The registration interface of [pybuilder.execution.ExecutionManager];
    building or registering a contribution may raise. *)
Class ExecutionManager := {
  EM : Type;
  register_task : Task -> EM -> result unit * EM;
  register_action : Action -> EM -> result unit * EM;
  register_initializer : Initializer -> EM -> result unit * EM
}.

Section Reactor.
Context `{X : Externals} `{C : !PluginCode} `{E : ExecutionManager}.

Record Reactor := mkReactor {
  reactor_env : Env;
  execution_manager : EM;
  plugin_loader : Loader;
  _plugins : list string;
  project : option Project
}.

Definition with_env {A} (m : M Env A) : M Reactor A :=
  fun r =>
    let '(a, e) := m (reactor_env r) in
    (a, mkReactor e (execution_manager r) (plugin_loader r) (_plugins r) (project r)).

Definition with_execution_manager {A} (m : EM -> result A * EM) : M Reactor A :=
  fun r =>
    let '(a, em) := m (execution_manager r) in
    (a, mkReactor (reactor_env r) em (plugin_loader r) (_plugins r) (project r)).

Definition set_plugins (l : list string) (r : Reactor) : Reactor :=
  mkReactor (reactor_env r) (execution_manager r) (plugin_loader r) l (project r).

(** [Reactor.__init__] *)
Definition Reactor_init (logger_ : Env) (execution_manager_ : EM)
    (plugin_loader_ : option Loader) : Reactor :=
  mkReactor logger_ execution_manager_
    (match plugin_loader_ with
     | Some l => l
     | None => Dispatching [Builtin; ThirdParty; Downloading]
     end)
    [] None.

Fixpoint for_each {S A} (l : list A) (body : A -> M S unit) : M S unit :=
  match l with
  | [] => ret tt
  | x :: rest => body x ;;; for_each rest body
  end.

(** [hasattr(candidate, A) and getattr(candidate, A)] *)
Definition marked (attribute : option bool) : bool := default false attribute.

Definition normalize_candidate_name (candidate : Candidate) : option string :=
  match NAME_ATTRIBUTE candidate with
  | Some n => Some n
  | None => dunder_name candidate
  end.

(** A dependency on the candidate itself, as [TaskDependency(candidate, ...)]
    holds it. *)
Definition reference (candidate : Candidate) : Target :=
  ByRef (NAME_ATTRIBUTE candidate) (dunder_name candidate).

(** The key [add_task_dependency] files a target under: a string as it is,
    anything else through [normalize_candidate_name]. *)
Definition target_key (t : Target) : option string :=
  match t with
  | ByName n => Some n
  | ByRef (Some n) _ => Some n
  | ByRef None d => d
  end.

Definition add_task_dependency (names : list Target) (depends_on : Candidate)
    (optional : bool) (injected_task_dependencies : gmap (option string) (list TaskDependency))
  : gmap (option string) (list TaskDependency) :=
  foldl
    (fun injected name =>
       let name := target_key name in
       let injected :=
         match injected !! name with
         | Some _ => injected
         | None => <[name := []]> injected
         end in
       alter (fun l => l ++ [mkTaskDependency (reference depends_on) optional]) name injected)
    injected_task_dependencies names.

(** The body of the first loop, for one candidate. *)
Definition harvest_dependents (candidate : Candidate)
    (injected_task_dependencies : gmap (option string) (list TaskDependency))
  : gmap (option string) (list TaskDependency) :=
  if marked (TASK_ATTRIBUTE candidate) then
    match DEPENDENTS_ATTRIBUTE candidate with
    | Some (d0 :: ds) =>
        foldl
          (fun injected d =>
             match d with
             | Optional ts => add_task_dependency ts candidate true injected
             | Plain t => add_task_dependency [t] candidate false injected
             end)
          injected_task_dependencies (d0 :: ds)
    | _ => injected_task_dependencies
    end
  else injected_task_dependencies.

(** The declared dependencies of a task, as the second loop builds them. *)
Definition collect_task_dependencies (candidate : Candidate) : list TaskDependency :=
  match DEPENDS_ATTRIBUTE candidate with
  | Some (d0 :: ds) =>
      foldl
        (fun task_dependencies d =>
           match d with
           | Optional ts =>
               task_dependencies ++ map (fun item => mkTaskDependency item true) ts
           | Plain t => task_dependencies ++ [mkTaskDependency t false]
           end)
        [] (d0 :: ds)
  | _ => []
  end.

(** The body of the second loop, for one candidate. *)
Definition register_candidate
    (injected_task_dependencies : gmap (option string) (list TaskDependency))
    (candidate : Candidate) : M Reactor unit :=
  let name := normalize_candidate_name candidate in
  let description := default "" (DESCRIPTION_ATTRIBUTE candidate) in
  if marked (TASK_ATTRIBUTE candidate) then
    let task_dependencies := collect_task_dependencies candidate in
    let task_dependencies :=
      match injected_task_dependencies !! name with
      | Some injected => task_dependencies ++ injected
      | None => task_dependencies
      end in
    with_env (log DEBUG "Found task '%s' with dependencies %s"
                [AName name; ADeps task_dependencies]) ;;;
    with_execution_manager
      (register_task (mkTask name candidate task_dependencies description))
  else if marked (ACTION_ATTRIBUTE candidate) then
    let before := BEFORE_ATTRIBUTE candidate in
    let after := AFTER_ATTRIBUTE candidate in
    let only_once := default false (ONLY_ONCE_ATTRIBUTE candidate) in
    let teardown := default false (TEARDOWN_ATTRIBUTE candidate) in
    with_env (log DEBUG "Found action %s" [AName name]) ;;;
    with_execution_manager
      (register_action (mkAction name candidate before after description only_once teardown))
  else if marked (INITIALIZER_ATTRIBUTE candidate) then
    let environments := default [] (ENVIRONMENTS_ATTRIBUTE candidate) in
    with_execution_manager
      (register_initializer (mkInitializer name candidate environments description))
  else ret tt.

(** [dir(None)]: the attributes of [None] carry none of the reactor's
    markers; all but [__doc__] have a [__name__]. *)
Definition unmarked (dunder : option string) : Candidate :=
  mkCandidate None dunder None None None None None None None None None None None.

Definition dir_None : list (string * Candidate) :=
  [("__bool__", unmarked (Some "__bool__")); ("__class__", unmarked (Some "NoneType"));
   ("__delattr__", unmarked (Some "__delattr__")); ("__dir__", unmarked (Some "__dir__"));
   ("__doc__", unmarked None); ("__eq__", unmarked (Some "__eq__"));
   ("__format__", unmarked (Some "__format__")); ("__ge__", unmarked (Some "__ge__"));
   ("__getattribute__", unmarked (Some "__getattribute__"));
   ("__gt__", unmarked (Some "__gt__")); ("__hash__", unmarked (Some "__hash__"));
   ("__init__", unmarked (Some "__init__"));
   ("__init_subclass__", unmarked (Some "__init_subclass__"));
   ("__le__", unmarked (Some "__le__")); ("__lt__", unmarked (Some "__lt__"));
   ("__ne__", unmarked (Some "__ne__")); ("__new__", unmarked (Some "__new__"));
   ("__reduce__", unmarked (Some "__reduce__"));
   ("__reduce_ex__", unmarked (Some "__reduce_ex__"));
   ("__repr__", unmarked (Some "__repr__")); ("__setattr__", unmarked (Some "__setattr__"));
   ("__sizeof__", unmarked (Some "__sizeof__")); ("__str__", unmarked (Some "__str__"));
   ("__subclasshook__", unmarked (Some "__subclasshook__"))].

(** [[getattr(project_module, name) for name in dir(project_module)]] *)
Definition candidates (project_module : option PluginModule) : list Candidate :=
  map snd (match project_module with
           | Some m => module_dir m
           | None => dir_None
           end).

Definition harvest (project_module : option PluginModule)
  : gmap (option string) (list TaskDependency) :=
  foldl (fun injected candidate => harvest_dependents candidate injected)
    ∅ (candidates project_module).

Definition collect_tasks_and_actions_and_initializers (project_module : option PluginModule)
  : M Reactor unit :=
  let injected_task_dependencies := harvest project_module in
  for_each (candidates project_module) (register_candidate injected_task_dependencies).

Definition with_reactor_env (env : Env) (r : Reactor) : Reactor :=
  mkReactor env (execution_manager r) (plugin_loader r) (_plugins r) (project r).

Definition set_world (w : World) (r : Reactor) : Reactor :=
  with_reactor_env (mkEnv (logger (reactor_env r)) w) r.

(** The interpreter as the loaders of a reactor have it.  What they call
    the world is the reactor with the world outside in it, since the code of
    an imported module reaches the reactor; the installer and the files
    belong to the world outside, and [import_] is how modules are
    imported. *)
Definition reentrant
    (import_ : string -> list LogRecord * Reactor -> Imported * (list LogRecord * Reactor))
  : Externals := {|
  World := Reactor;
  Project := Project;
  import_module := import_;
  NamedTemporaryFile := fun r =>
    let '(name, w) := NamedTemporaryFile (world (reactor_env r)) in (name, set_world w r);
  execute_command := fun cmd out_file r =>
    let '(status, w) := execute_command cmd out_file (world (reactor_env r)) in
    (status, set_world w r);
  read_file := fun name r => read_file name (world (reactor_env r));
  pyb_version := pyb_version;
  specifier_valid := specifier_valid;
  contains := contains
|}.

(** The loader is entered with the reactor's logger and leaves it to the
    reactor again. *)
Definition enter import_ (r : Reactor) : @Env (reentrant import_) :=
  @mkEnv (reentrant import_) (logger (reactor_env r)) r.

Definition leave import_ (e : @Env (reentrant import_)) : Reactor :=
  with_reactor_env (mkEnv (logger e) (world (reactor_env (world e)))) (world e).

(** [self.plugin_loader.load_plugin(self.project, plugin, version, plugin_module_name)] *)
Definition load import_ (plugin : string) (version plugin_module_name : option string)
  : M Reactor (option PluginModule) :=
  fun r =>
    let '(plugin_module, e) :=
      @load_plugin (reentrant import_) (plugin_loader r) (project r)
        plugin version plugin_module_name (enter import_ r) in
    (plugin_module, leave import_ e).

(** [Reactor.import_plugin], for a way of importing modules. *)
Definition import_plugin_with import_ (plugin : string)
    (version plugin_module_name : option string) : M Reactor unit :=
  with_env (log DEBUG "Loading plugin '%s'%s"
              [AStr plugin;
               AStr (if truthy version then " version " +:+ default "" version else "")]) ;;;
  plugin_module <- load import_ plugin version plugin_module_name ;;
  collect_tasks_and_actions_and_initializers plugin_module.

(** [list.remove(x)]: the first occurrence goes; [None] when there is none
    (a [ValueError]). *)
Fixpoint list_remove (x : string) (l : list string) : option (list string) :=
  match l with
  | [] => None
  | y :: l' => if decide (x = y) then Some l' else cons y <$> list_remove x l'
  end.

Definition plugins_append (plugin : string) : M Reactor unit :=
  fun r => (Ok tt, set_plugins (_plugins r ++ [plugin]) r).

Definition plugins_remove (plugin : string) : M Reactor unit :=
  fun r =>
    match list_remove plugin (_plugins r) with
    | Some l => (Ok tt, set_plugins l r)
    | None => (Raise (ValueError "list.remove(x): x not in list"), r)
    end.

(** [Reactor.require_plugin], for a way of importing modules. *)
Definition require_plugin_with import_ (plugin : string)
    (version plugin_module_name : option string) : M Reactor unit :=
  fun r =>
    if decide (plugin ∈ _plugins r) then (Ok tt, r)
    else
      try_except
        (plugins_append plugin ;;;
         import_plugin_with import_ plugin version plugin_module_name)
        (fun e => Some (plugins_remove plugin ;;; raise e))
        r.

(** The rest of the code of a module: the import the world outside
    describes. *)
Definition import_rest (name : string) (r : Reactor) : Imported * Reactor :=
  let '(imported, (lg, w)) :=
    import_module name (logger (reactor_env r), world (reactor_env r)) in
  (imported, with_reactor_env (mkEnv lg w) r).

(** The code of module [name] runs; [require] is the [require_plugin] its
    [use_plugin] calls reach. *)
Fixpoint run_body (require : string -> option string -> option string -> M Reactor unit)
    (name : string) (body : Body) (r : Reactor) : Imported * Reactor :=
  match body with
  | Rest => import_rest name r
  | Raises e => (ImportRaises e, r)
  | Use plugin version plugin_module_name next =>
      let '(outcome, r') := require plugin version plugin_module_name r in
      run_body require name (next outcome) r'
  end.

(** [__import__(name)] when [depth] more imports may nest: past that depth
    the interpreter raises [RecursionError] where [require_plugin] is
    called. *)
Fixpoint import_at (depth : nat) (name : string) (s : list LogRecord * Reactor)
  : Imported * (list LogRecord * Reactor) :=
  let r := with_reactor_env (mkEnv s.1 (world (reactor_env s.2))) s.2 in
  let '(imported, r') :=
    run_body
      (match depth with
       | O => fun _ _ _ => raise (RecursionError "maximum recursion depth exceeded")
       | S d => require_plugin_with (import_at d)
       end)
      name (module_body name (world (reactor_env r))) r in
  (imported, (logger (reactor_env r'), r')).

Definition import_plugin (depth : nat) (plugin : string)
    (version plugin_module_name : option string) : M Reactor unit :=
  import_plugin_with (import_at depth) plugin version plugin_module_name.

Definition require_plugin (depth : nat) (plugin : string)
    (version plugin_module_name : option string) : M Reactor unit :=
  require_plugin_with (import_at depth) plugin version plugin_module_name.

Definition get_plugins (r : Reactor) : list string := _plugins r.



End Reactor.

(** ** Reading the claims: auxiliary definitions *)

Section Reading.
Context `{X : Externals} `{C : !PluginCode} `{E : ExecutionManager}.

(** Every strategy of the list raises [MissingPluginException], one after
    the other from [env]: the last such error and the final state. *)
Fixpoint fall_through (loader : list PluginLoader) (last_problem : option PyError)
    (project : option Project) (name : string) (version plugin_module_name : option string)
    (env : Env) : option (option PyError * Env) :=
  match loader with
  | [] => Some (last_problem, env)
  | l :: rest =>
      match l project name version plugin_module_name env with
      | (Raise e, env1) =>
          if is_missing e
          then fall_through rest (Some e) project name version plugin_module_name env1
          else None
      | (Ok _, _) => None
      end
  end.

(** The package reference handed to the installer. *)
Definition pip_package_of (name : string) (version : option string) : string :=
  if startswith name PYPI_PLUGIN_PROTOCOL then
    let pip_package := str_replace name PYPI_PLUGIN_PROTOCOL "" in
    if truthy version then pip_package +:+ default "" version else pip_package
  else str_replace name VCS_PLUGIN_PROTOCOL "".

Definition has_protocol (name : string) : bool :=
  startswith name PYPI_PLUGIN_PROTOCOL || startswith name VCS_PLUGIN_PROTOCOL.

(** The installer run for [name] from world [w]: the log file, the exit
    status and the world it leaves. *)
Definition installer_run (name : string) (version : option string) (w : World)
  : string * (Z * World) :=
  let '(log_file_name, w1) := NamedTemporaryFile w in
  (log_file_name,
   execute_command ["pip"; "install"; "--upgrade"; pip_package_of name version]
     log_file_name w1).

Definition installer_status (name : string) (version : option string) (w : World) : Z :=
  (installer_run name version w).2.1.

Definition installer_world (name : string) (version : option string) (w : World) : World :=
  (installer_run name version w).2.2.

(** The text the installer left in its log file. *)
Definition installer_log (name : string) (version : option string) (w : World) : string :=
  String.concat ""
    (read_file (installer_run name version w).1 (installer_world name version w)).

(** The exception of a failed installer run, and what a failed download
    writes to the logger. *)
Definition install_failure (name : string) (version : option string) : PyError :=
  MissingPluginException name
    ("Failed to install plugin from " +:+ pip_package_of name version).

Definition failed_download_log (name : string) (version : option string) (w : World)
  : list LogRecord :=
  [mkLog INFO "Downloading missing plugin {0}" [AStr (display_name name version)];
   mkLog ERROR ("The following pip error was encountered:" +:+ newline
                +:+ installer_log name version w) [];
   mkLog ERROR "Could not install plugin {0}: {1}."
     [AStr (display_name name version); AErr (install_failure name version)]].

(** Installation fails: no supported protocol, or a nonzero exit status. *)
Definition installation_fails (name : string) (version : option string) (w : World) : bool :=
  negb (has_protocol name) || negb (installer_status name version w =? 0)%Z.

(** The declared forward dependencies of a task, in declared order; an
    [optional] wrapper gives one optional dependency per target. *)
Definition declared_dependencies (candidate : Candidate) : list TaskDependency :=
  flat_map
    (fun d =>
       match d with
       | Plain t => [mkTaskDependency t false]
       | Optional ts => map (fun t => mkTaskDependency t true) ts
       end)
    (default [] (DEPENDS_ATTRIBUTE candidate)).

(** What the first pass records for one candidate, in the order it records
    it: the name of the dependent and the dependency on the candidate. *)
Definition dependents_of (candidate : Candidate) : list (option string * TaskDependency) :=
  if marked (TASK_ATTRIBUTE candidate) then
    flat_map
      (fun d =>
         match d with
         | Plain t => [(target_key t, mkTaskDependency (reference candidate) false)]
         | Optional ts =>
             map (fun t => (target_key t, mkTaskDependency (reference candidate) true)) ts
         end)
      (default [] (DEPENDENTS_ATTRIBUTE candidate))
  else [].

Definition accumulated (project_module : option PluginModule)
  : list (option string * TaskDependency) :=
  flat_map dependents_of (candidates project_module).

(** The dependencies injected for [name], in accumulation order. *)
Definition injected_for (project_module : option PluginModule) (name : option string)
  : list TaskDependency :=
  map snd (filter (fun entry => entry.1 = name) (accumulated project_module)).

(** The task the assembler is to register for a task candidate. *)
Definition assembled_task (project_module : option PluginModule) (candidate : Candidate)
  : Task :=
  mkTask (normalize_candidate_name candidate) candidate
    (declared_dependencies candidate
       ++ injected_for project_module (normalize_candidate_name candidate))
    (default "" (DESCRIPTION_ATTRIBUTE candidate)).

(** A computation of the reactor that leaves the plugin list alone. *)
Definition keeps_plugins {A} (m : M Reactor A) : Prop :=
  forall r, _plugins (m r).2 = _plugins r.

(** The reactor as [require_plugin] has it when it calls the loader for a
    plugin that is not in the list: the plugin appended, the call logged. *)
Definition entered (plugin : string) (version : option string) (r : Reactor) : Reactor :=
  mkReactor
    (mkEnv (logger (reactor_env r)
            ++ [mkLog DEBUG "Loading plugin '%s'%s"
                  [AStr plugin;
                   AStr (if truthy version then " version " +:+ default "" version else "")]])
       (world (reactor_env r)))
    (execution_manager r) (plugin_loader r) (_plugins r ++ [plugin]) (project r).

(** The load or the assembly of [require_plugin depth plugin version pmn]
    raises [e], leaving the reactor as [r']. *)
Definition load_or_assembly_raises (depth : nat) (plugin : string)
    (version pmn : option string) (r : Reactor) (e : PyError) (r' : Reactor) : Prop :=
  let r1 := entered plugin version r in
  load (import_at depth) plugin version pmn r1 = (Raise e, r')
  \/ (exists plugin_module r2,
        load (import_at depth) plugin version pmn r1 = (Ok plugin_module, r2)
        /\ collect_tasks_and_actions_and_initializers plugin_module r2 = (Raise e, r')).

(** The plugin list of [r'] is that of [r] with new identifiers after it,
    each once. *)
Definition grows (r r' : Reactor) : Prop :=
  exists added,
    _plugins r' = _plugins r ++ added
    /\ NoDup added
    /\ forall x, x ∈ added -> x ∉ _plugins r.

(** No module calls [use_plugin] when it is imported. *)
Definition requires_nothing : Prop :=
  forall name w, module_body name w = Rest.

(** A computation of a loader that moves the world along [R]. *)
Definition moves_along (R : relation World) {A} (m : M Env A) : Prop :=
  forall env, R (world env) (world (m env).2).

(** A computation of the reactor after which the plugin list has grown. *)
Definition growing {A} (m : M Reactor A) : Prop :=
  forall r, grows r (m r).2.

(** A way of importing modules that only lets the plugin list grow. *)
Definition import_grows
    (import_ : string -> list LogRecord * Reactor -> Imported * (list LogRecord * Reactor))
  : Prop :=
  forall name lg r, grows r (import_ name (lg, r)).2.2.

(** The same, for the plugin list staying as it is. *)
Definition same_plugins (r r' : Reactor) : Prop := _plugins r' = _plugins r.

Definition import_keeps
    (import_ : string -> list LogRecord * Reactor -> Imported * (list LogRecord * Reactor))
  : Prop :=
  forall name lg r, same_plugins r (import_ name (lg, r)).2.2.

(** The entries of the accumulating map under a name, none when the name is
    not a key. *)
Definition entries (injected : gmap (option string) (list TaskDependency))
    (name : option string) : list TaskDependency :=
  default [] (injected !! name).


End Reading.

(** ** A reference model of the packaging library

    Release-only versions ([1.9.0]) and comma-separated clauses with the
    operators [>=], [<=], [>], [<], [==], [!=], compared segment by segment
    with missing segments read as zero, as PEP 440 orders them. *)
Module Pep440.

Definition digit (c : ascii) : option N :=
  let n := Ascii.N_of_ascii c in
  if ((48 <=? n) && (n <=? 57))%N then Some (n - 48)%N else None.

Fixpoint parse_release (s : string) (current : option N) (done_ : list N)
  : option (list N) :=
  match s with
  | EmptyString =>
      match current with
      | Some n => Some (rev (n :: done_))
      | None => None
      end
  | String c s' =>
      if Ascii.eqb c "."%char then
        match current with
        | Some n => parse_release s' None (n :: done_)
        | None => None
        end
      else
        match digit c with
        | Some d => parse_release s' (Some (10 * default 0 current + d)%N) done_
        | None => None
        end
  end.

Definition release (text : string) : option (list N) := parse_release text None [].

Fixpoint compare_release (a b : list N) : comparison :=
  match a, b with
  | [], _ => if forallb (N.eqb 0) b then Eq else Lt
  | _, [] => if forallb (N.eqb 0) a then Eq else Gt
  | x :: a', y :: b' =>
      match (x ?= y)%N with
      | Eq => compare_release a' b'
      | c => c
      end
  end.

Inductive Operator := GE | LE | GT | LT | EQ | NE.

Fixpoint split_on (sep : ascii) (s : string) (current : string) : list string :=
  match s with
  | EmptyString => [current]
  | String c s' =>
      if Ascii.eqb c sep then current :: split_on sep s' EmptyString
      else split_on sep s' (current +:+ String c EmptyString)
  end.

Fixpoint lstrip (s : string) : string :=
  match s with
  | String c s' => if Ascii.eqb c " "%char then lstrip s' else s
  | EmptyString => EmptyString
  end.

Definition drop_chars (n : nat) (s : string) : string :=
  String.substring n (String.length s - n) s.

Definition parse_clause (text : string) : option (Operator * list N) :=
  let t := lstrip text in
  let with_op (op : Operator) (n : nat) := pair op <$> release (lstrip (drop_chars n t)) in
  if String.prefix ">=" t then with_op GE 2
  else if String.prefix "<=" t then with_op LE 2
  else if String.prefix "==" t then with_op EQ 2
  else if String.prefix "!=" t then with_op NE 2
  else if String.prefix ">" t then with_op GT 1
  else if String.prefix "<" t then with_op LT 1
  else None.

Definition parse_set (text : string) : option (list (Operator * list N)) :=
  mapM parse_clause (split_on ","%char text EmptyString).

Definition satisfies (v : list N) (clause : Operator * list N) : bool :=
  let c := compare_release v clause.2 in
  match clause.1, c with
  | GE, (Eq | Gt) | LE, (Eq | Lt) | GT, Gt | LT, Lt | EQ, Eq | NE, (Lt | Gt) => true
  | _, _ => false
  end.

Definition valid (text : string) : bool := bool_decide (is_Some (parse_set text)).

Definition set_contains (required : SpecifierSet) (v : Version) : bool :=
  match parse_set (specifiers required), release (version_text v) with
  | Some clauses, Some r => forallb (satisfies r) clauses
  | _, _ => false
  end.

End Pep440.

(** ** A small world to run the code in *)

Record Host := mkHost {
  importable : list (string * PluginModule);
  pip_exit : Z;
  pip_output : list string;
  pip_provides : list (string * PluginModule);
  import_attempts : list string;
  commands_run : list (list string)
}.

Definition host_import (name : string) (s : list LogRecord * Host)
  : Imported * (list LogRecord * Host) :=
  let w := s.2 in
  (if String.eqb name "" then ImportRaises (ValueError "Empty module name")
   else
     match list_find (fun entry => entry.1 = name) (importable w) with
     | Some (_, (_, m)) => Module_ m
     | None => ImportError ("No module named " +:+ name)
     end,
   (s.1,
    mkHost (importable w) (pip_exit w) (pip_output w) (pip_provides w)
      (import_attempts w ++ [name]) (commands_run w))).

Definition host_execute (cmd : list string) (out_file : string) (w : Host) : Z * Host :=
  (pip_exit w,
   mkHost (if (pip_exit w =? 0)%Z then importable w ++ pip_provides w else importable w)
     (pip_exit w) (pip_output w) (pip_provides w) (import_attempts w)
     (commands_run w ++ [cmd])).

Definition host_read (name : string) (w : Host) : list string :=
  if String.eqb name "/tmp/pip.log" then pip_output w else [].

(** The host tool at version [v], with the reference packaging model. *)
Definition host (v : string) : Externals := {|
  World := Host;
  Project := unit;
  import_module := host_import;
  NamedTemporaryFile := fun w => ("/tmp/pip.log", w);
  execute_command := host_execute;
  read_file := host_read;
  pyb_version := v;
  specifier_valid := Pep440.valid;
  contains := Pep440.set_contains
|}.

(** Modules whose code calls [use_plugin], with that code; the other
    modules call nothing. *)
Definition host_code (v : string) (code : list (string * Body)) : @PluginCode (host v) := {|
  module_body := fun name _ =>
    match list_find (fun entry => entry.1 = name) code with
    | Some (_, (_, body)) => body
    | None => Rest
    end
|}.

Inductive Registration :=
| RegisteredTask (t : Task)
| RegisteredAction (a : Action)
| RegisteredInitializer (i : Initializer).

Definition registered_tasks (l : list Registration) : list Task :=
  omap (fun g => match g with RegisteredTask t => Some t | _ => None end) l.

(** An execution manager that records what is registered, in order. *)
Definition recorder : ExecutionManager := {|
  EM := list Registration;
  register_task := fun t em => (Ok tt, em ++ [RegisteredTask t]);
  register_action := fun a em => (Ok tt, em ++ [RegisteredAction a]);
  register_initializer := fun i em => (Ok tt, em ++ [RegisteredInitializer i])
|}.

(** An execution manager that refuses a task without a name. *)
Definition strict_recorder : ExecutionManager := {|
  EM := list Registration;
  register_task := fun t em =>
    match task_name t with
    | Some _ => (Ok tt, em ++ [RegisteredTask t])
    | None => (Raise (CollaboratorError "invalid task name"), em)
    end;
  register_action := fun a em => (Ok tt, em ++ [RegisteredAction a]);
  register_initializer := fun i em => (Ok tt, em ++ [RegisteredInitializer i])
|}.

(** ** Reading the code further: auxiliary definitions *)

Section Further.
Context `{X : Externals} `{E : ExecutionManager}.

(** The plugin an exception of [pybuilder.errors] was built with. *)
Definition error_plugin (e : PyError) : option string :=
  match e with
  | MissingPluginException p _ => Some p
  | IncompatiblePluginException p _ _ => Some p
  | UnspecifiedPluginNameException p => Some p
  | _ => None
  end.

(** An exception that came out of the import of a module: the code of the
    module raised it or let it through. *)
Definition raised_by_import (e : PyError) : Prop :=
  exists name s, (import_module name s).1 = ImportRaises e.

(** A loader whose plugin exceptions carry the identifier it was asked
    for, unless they came out of an import. *)
Definition names_identifier (l : PluginLoader) : Prop :=
  forall project name version pmn env e env' p,
    l project name version pmn env = (Raise e, env') ->
    error_plugin e = Some p ->
    p = name \/ raised_by_import e.

(** The module the builtin loader imports for an identifier. *)
Definition builtin_module_name (name : string) (plugin_module_name : option string) : string :=
  if truthy plugin_module_name then default "" plugin_module_name
  else "pybuilder.plugins." +:+ name +:+ "_plugin".

(** What the downloading loader logs around a successful installer run. *)
Definition installed_log (name : string) (version : option string) : list LogRecord :=
  [mkLog INFO "Downloading missing plugin {0}" [AStr (display_name name version)];
   mkLog INFO "Installed plugin {0}." [AStr (display_name name version)]].

(** A candidate with none of the three role markers. *)
Definition unmarked_candidate (candidate : Candidate) : bool :=
  negb (marked (TASK_ATTRIBUTE candidate))
  && negb (marked (ACTION_ATTRIBUTE candidate))
  && negb (marked (INITIALIZER_ATTRIBUTE candidate)).

(** The one contribution a candidate makes, by the first role marker it
    carries: task, then action, then initializer. *)
Definition contribution (project_module : option PluginModule) (candidate : Candidate)
  : option Registration :=
  let name := normalize_candidate_name candidate in
  let description := default "" (DESCRIPTION_ATTRIBUTE candidate) in
  if marked (TASK_ATTRIBUTE candidate) then
    Some (RegisteredTask (assembled_task project_module candidate))
  else if marked (ACTION_ATTRIBUTE candidate) then
    Some (RegisteredAction
            (mkAction name candidate (BEFORE_ATTRIBUTE candidate) (AFTER_ATTRIBUTE candidate)
               description (default false (ONLY_ONCE_ATTRIBUTE candidate))
               (default false (TEARDOWN_ATTRIBUTE candidate))))
  else if marked (INITIALIZER_ATTRIBUTE candidate) then
    Some (RegisteredInitializer
            (mkInitializer name candidate (default [] (ENVIRONMENTS_ATTRIBUTE candidate))
               description))
  else None.

End Further.


(** ** The build lifecycle of the reactor

    [verify_project_directory], [validate_project], [log_project_properties],
    [create_execution_plan], [build_execution_plan] and [build].  These raise
    [PyBuilderException] and [ProjectValidationFailedException] themselves;
    whatever else their collaborators raise passes through them. *)

Inductive BuildError :=
| PyBuilderException (message : string) (arguments : list string)
| ProjectValidationFailedException (validation_messages : list string)
| RaisedByCollaborator (e : PyError).

Definition MB (S A : Type) : Type := S -> (BuildError + A) * S.

Definition retB {S A} (a : A) : MB S A := fun s => (inr a, s).
Definition raiseB {S A} (e : BuildError) : MB S A := fun s => (inl e, s).
Definition bindB {S A B} (m : MB S A) (k : A -> MB S B) : MB S B :=
  fun s =>
    match m s with
    | (inr a, s') => k a s'
    | (inl e, s') => (inl e, s')
    end.

Declare Scope build_scope.
Delimit Scope build_scope with build.
Notation "x <- m ;; k" := (bindB m (fun x => k))
  (at level 100, m at next level, right associativity) : build_scope.
Notation "m ;;; k" := (bindB m (fun _ => k))
  (at level 100, right associativity) : build_scope.

(** [os.path], on the file system as it is when the reactor looks. *)
Class OsPath := {
  abspath : string -> string;
  path_exists : string -> bool;
  isdir : string -> bool;
  isfile : string -> bool;
  join : string -> string -> string
}.

(** [Reactor.verify_project_directory] *)
Definition verify_project_directory `{OsPath} (project_directory project_descriptor : string)
  : BuildError + string * string :=
  let project_directory := abspath project_directory in
  if negb (path_exists project_directory) then
    inl (PyBuilderException "Project directory does not exist: %s" [project_directory])
  else if negb (isdir project_directory) then
    inl (PyBuilderException "Project directory is not a directory: %s" [project_directory])
  else
    let project_descriptor_full_path := join project_directory project_descriptor in
    if negb (path_exists project_descriptor_full_path) then
      inl (PyBuilderException "Project directory does not contain descriptor file: %s"
             [project_descriptor_full_path])
    else if negb (isfile project_descriptor_full_path) then
      inl (PyBuilderException "Project descriptor is not a file: %s"
             [project_descriptor_full_path])
    else inr (project_directory, project_descriptor_full_path).

(** A task argument or a [default_task]: nothing, one name or a list of
    names. *)
Inductive Names :=
| NoNames
| OneName (name : string)
| ManyNames (names : list string).

(** Python truthiness of such a value. *)
Definition given (v : Names) : bool :=
  match v with
  | NoNames => false
  | OneName name => negb (String.eqb name "")
  | ManyNames names => match names with [] => false | _ => true end
  end.

(** [as_list(v)]: a list is unpacked, [None] gives nothing, anything else is
    the one element. *)
Definition as_list (v : Names) : list string :=
  match v with
  | NoNames => []
  | OneName name => [name]
  | ManyNames names => names
  end.

(** The project, the execution manager and their surroundings during a
    build; the logger is the one the reactor writes to. *)
Class Lifecycle := {
  Surroundings : Type;
  Plan : Type;
  Summaries : Type;
  (** the names of the tasks of an execution plan, in order *)
  plan_names : Plan -> list string;
  (** [execution_manager.execute_initializers(environments, logger=, project=)] *)
  execute_initializers :
    list string -> list LogRecord * Surroundings ->
    (BuildError + unit) * (list LogRecord * Surroundings);
  (** the keys of [project.properties] *)
  property_names : Surroundings -> list string;
  (** [project.get_property(key)], as [%s] prints it *)
  get_property : string -> Surroundings -> string;
  (** [project.validate()] *)
  validate : Surroundings -> list string;
  (** [project.default_task] *)
  default_task : Surroundings -> Names;
  project_name : Surroundings -> string;
  project_version : Surroundings -> string;
  project_basedir : Surroundings -> string;
  (** [get_dist_version_string(project)] *)
  get_dist_version_string : Surroundings -> string;
  (** [execution_manager.build_execution_plan(tasks)] *)
  plan_for :
    list string -> list LogRecord * Surroundings ->
    (BuildError + Plan) * (list LogRecord * Surroundings);
  (** [execution_manager.execute_execution_plan(plan, logger=, project=, reactor=)] *)
  execute_execution_plan :
    Plan -> list LogRecord * Surroundings ->
    (BuildError + Summaries) * (list LogRecord * Surroundings)
}.

Section Lifecycle.
Context `{L : Lifecycle}.
Local Open Scope build_scope.

(** The reactor during a build: its logger and everything else. *)
Definition Build : Type := list LogRecord * Surroundings.

Definition logB (lvl : Level) (msg : string) (args : list LogArg) : MB Build unit :=
  fun b => (inr tt, (b.1 ++ [mkLog lvl msg args], b.2)).

(** [BuildSummary(project, task_execution_summaries)]; the project is the
    reactor's. *)
Record BuildSummary := mkBuildSummary { task_summaries : Summaries }.

Definition validate_project : MB Build unit :=
  fun b =>
    let validation_messages := validate b.2 in
    if (0 <? length validation_messages)%nat
    then (inl (ProjectValidationFailedException validation_messages), b)
    else (inr tt, b).

(** [sorted(...)] on strings: ascending, character by character. *)
Definition sorted (keys : list string) : list string := merge_sort String.le keys.

(** ["%40s" % s]: right-justified in forty columns. *)
Definition percent_40s (s : string) : string :=
  String.concat "" (replicate (40 - String.length s) " ") +:+ s.

Definition log_project_properties : MB Build unit :=
  fun b =>
    let formatted :=
      foldl (fun formatted key =>
               formatted +:+ newline +:+ percent_40s key +:+ " : " +:+ get_property key b.2)
        "" (sorted (property_names b.2)) in
    logB DEBUG "Project properties: %s" [AStr formatted] b.

(** [Reactor.create_execution_plan].  [tasks] is a list object the caller
    holds too, and [tasks += ...] extends it in place: the list as the call
    leaves it is returned beside the plan. *)
Definition create_execution_plan (tasks environments : list string)
  : MB Build (Plan * list string) :=
  (match environments with
   | [] => retB tt
   | _ => logB INFO "Activated environments: %s" [AStr (String.concat ", " environments)]
   end) ;;;
  execute_initializers environments ;;;
  log_project_properties ;;;
  validate_project ;;;
  tasks <-
    (match tasks with
     | [] =>
         fun b =>
           if given (default_task b.2)
           then (inr (tasks ++ as_list (default_task b.2)), b)
           else (inl (PyBuilderException "No default task given." []), b)
     | _ => retB tasks
     end) ;;
  execution_plan <- plan_for tasks ;;
  retB (execution_plan, tasks).

(** [Reactor.build_execution_plan] *)
Definition build_execution_plan (tasks : list string) (execution_plan : Plan)
  : MB Build BuildSummary :=
  logB DEBUG "Execution plan is %s" [AStr (String.concat ", " (plan_names execution_plan))] ;;;
  (fun b =>
     logB INFO "Building %s version %s%s"
       [AStr (project_name b.2); AStr (project_version b.2);
        AStr (get_dist_version_string b.2)] b) ;;;
  (fun b => logB INFO "Executing build in %s" [AStr (project_basedir b.2)] b) ;;;
  (match tasks with
   | [task] => logB INFO "Going to execute task %s" [AStr task]
   | _ => logB INFO "Going to execute tasks: %s" [AStr (String.concat ", " tasks)]
   end) ;;;
  task_execution_summaries <- execute_execution_plan execution_plan ;;
  retB (mkBuildSummary task_execution_summaries).

(** [Reactor.build]: the summary is not returned. *)
Definition build (tasks : Names) (environments : list string) : MB Build unit :=
  let tasks := if negb (given tasks) then [] else as_list tasks in
  planned <- create_execution_plan tasks environments ;;
  let '(execution_plan, tasks) := planned in
  build_execution_plan tasks execution_plan ;;;
  retB tt.

(** What the lifecycle does before it logs the properties: the activated
    environments are logged, the initializers run. *)
Definition initialize (environments : list string) : MB Build unit :=
  (match environments with
   | [] => retB tt
   | _ => logB INFO "Activated environments: %s" [AStr (String.concat ", " environments)]
   end) ;;;
  execute_initializers environments.

(** The build once the project properties are logged. *)
Definition properties_logged (b : Build) : Build := (log_project_properties b).2.

(** The line of the properties log for one key. *)
Definition property_line (s : Surroundings) (key : string) : string :=
  newline +:+ percent_40s key +:+ " : " +:+ get_property key s.

(** The plan the execution manager gives for [tasks], with [tasks]. *)
Definition planned (tasks : list string) (b : Build)
  : (BuildError + Plan * list string) * Build :=
  match plan_for tasks b with
  | (inr execution_plan, b') => (inr (execution_plan, tasks), b')
  | (inl e, b') => (inl e, b')
  end.

(** The record that announces the tasks of a build. *)
Definition announcement (tasks : list string) : LogRecord :=
  match tasks with
  | [task] => mkLog INFO "Going to execute task %s" [AStr task]
  | _ => mkLog INFO "Going to execute tasks: %s" [AStr (String.concat ", " tasks)]
  end.

(** The build as [build_execution_plan] has it when it hands the plan to the
    execution manager. *)
Definition announced (tasks : list string) (execution_plan : Plan) (b : Build) : Build :=
  (b.1 ++ [mkLog DEBUG "Execution plan is %s"
             [AStr (String.concat ", " (plan_names execution_plan))];
           mkLog INFO "Building %s version %s%s"
             [AStr (project_name b.2); AStr (project_version b.2);
              AStr (get_dist_version_string b.2)];
           mkLog INFO "Executing build in %s" [AStr (project_basedir b.2)];
           announcement tasks],
   b.2).

End Lifecycle.


(** ** Scenarios *)

Module Scenario.

(** The host tool at version 1.9.0. *)
Definition tool : Externals := host "1.9.0".

Definition plain_module : PluginModule := mkModule None [].
Definition gated_module : PluginModule := mkModule (Some ">=2.0,<3.0") [].

(** Nothing can be imported and the installer exits with status 1. *)
Definition offline : Host :=
  mkHost [] 1 ["ERROR: No matching distribution found for example-plugin"] [] [] [].

(** [example] is installed as a third-party module. *)
Definition with_example : Host := mkHost [("example", plain_module)] 1 [] [] [] [].

(** The builtin [example] plugin asks for a host in [>=2.0,<3.0]; a
    third-party module of the same name asks for nothing. *)
Definition with_gated_builtin : Host :=
  mkHost [("pybuilder.plugins.example_plugin", gated_module); ("example", plain_module)]
    1 [] [] [] [].

Definition env_of (w : Host) : @Env tool := @mkEnv tool [] w.

(** The chain [Reactor.__init__] builds. *)
Definition default_chain : list (@PluginLoader tool) :=
  [BuiltinPluginLoader; ThirdPartyPluginLoader; DownloadingPluginLoader].

Definition new_reactor (w : Host) : @Reactor tool recorder :=
  @Reactor_init tool recorder (env_of w) [] None.

Definition strict_reactor (w : Host) : @Reactor tool strict_recorder :=
  @Reactor_init tool strict_recorder (env_of w) [] None.

(** A build module with three tasks: [compile] names [package] as its
    dependent, [package] depends on [prepare] and, optionally, on [lint] and
    [docs], and [verify] names [package] as an optional dependent. *)
Definition task (name : string) (depends dependents : option (list DepDecl)) : Candidate :=
  mkCandidate None (Some name) (Some true) depends dependents None
    None None None None None None None.

Definition compile : Candidate := task "compile" None (Some [Plain (ByName "package")]).
Definition package : Candidate :=
  task "package"
    (Some [Plain (ByName "prepare"); Optional [ByName "lint"; ByName "docs"]]) None.
Definition verify : Candidate := task "verify" None (Some [Optional [ByName "package"]]).

Definition build_module : PluginModule :=
  mkModule None [("compile", compile); ("package", package); ("verify", verify)].

(** A plugin whose only contribution is a task without a name. *)
Definition nameless_module : PluginModule :=
  mkModule None
    [("t", mkCandidate None None (Some true) None None None
             None None None None None None None)].

Definition with_nameless : Host :=
  mkHost [("pybuilder.plugins.nameless_plugin", nameless_module)] 1 [] [] [] [].

(** No module calls [use_plugin]. *)
Definition no_code : @PluginCode tool := host_code "1.9.0" [].

(** The builtin plugin [outer] calls [use_plugin("inner")] and asks for a
    host in [>=2.0,<3.0]; the builtin plugin [inner] asks for nothing.  An
    exception of [use_plugin] ends the import. *)
Definition go_on (outcome : result unit) : Body :=
  match outcome with
  | Ok _ => Rest
  | Raise e => Raises e
  end.

Definition with_nested : Host :=
  mkHost [("pybuilder.plugins.outer_plugin", gated_module);
          ("pybuilder.plugins.inner_plugin", plain_module)] 1 [] [] [] [].

Definition nested_code : @PluginCode tool :=
  host_code "1.9.0" [("pybuilder.plugins.outer_plugin", Use "inner" None None go_on)].


(** The installer succeeds and brings [example]. *)
Definition online : Host := mkHost [] 0 [] [("example", plain_module)] [] [].

(** [example] is a builtin plugin without a compatibility requirement. *)
Definition with_builtin : Host :=
  mkHost [("pybuilder.plugins.example_plugin", plain_module)] 1 [] [] [] [].

(** A module whose second task has no name. *)
Definition half_module : PluginModule :=
  mkModule None
    [("first", task "first" None None);
     ("second", mkCandidate None None (Some true) None None None
                  None None None None None None None);
     ("third", task "third" None None)].

(** A small file system: [/work] is a directory with a [build.py] in it,
    [/work/notes] is a file. *)
Definition demo_paths : OsPath := {|
  abspath := fun p => if String.prefix "/" p then p else "/cwd/" +:+ p;
  path_exists := fun p => bool_decide (p ∈ ["/work"; "/work/build.py"; "/work/notes"]);
  isdir := fun p => String.eqb p "/work";
  isfile := fun p => bool_decide (p ∈ ["/work/build.py"; "/work/notes"]);
  join := fun d f => if String.prefix "/" f then f else d +:+ "/" +:+ f
|}.

(** A project for the lifecycle: its properties, what [validate] says, its
    default task, and the plans that were executed. *)
Record DemoProject := mkDemoProject {
  demo_properties : list (string * string);
  demo_messages : list string;
  demo_default : Names;
  demo_executed : list (list string)
}.

Definition demo_lifecycle : Lifecycle := {|
  Surroundings := DemoProject;
  Plan := list string;
  Summaries := list string;
  plan_names := fun plan => plan;
  execute_initializers := fun _ b => (inr tt, b);
  property_names := fun p => map fst (demo_properties p);
  get_property := fun key p =>
    match list_find (fun entry => entry.1 = key) (demo_properties p) with
    | Some (_, (_, value)) => value
    | None => ""
    end;
  validate := demo_messages;
  default_task := demo_default;
  project_name := fun _ => "demo";
  project_version := fun _ => "1.0";
  project_basedir := fun _ => "/work";
  get_dist_version_string := fun _ => "";
  plan_for := fun tasks b => (inr tasks, b);
  execute_execution_plan := fun plan b =>
    (inr plan,
     (b.1, mkDemoProject (demo_properties b.2) (demo_messages b.2) (demo_default b.2)
             (demo_executed b.2 ++ [plan])))
|}.

Definition demo_build (messages : list string) (default : Names)
  : @Build demo_lifecycle :=
  ([], mkDemoProject [("verbose", "True"); ("basedir", "/work")] messages default []).

End Scenario.

(** * Properties *)

(** ** Loaders as objects *)

Lemma Loader_ind (P : Loader -> Prop) :
  P Base -> P Builtin -> P ThirdParty -> P Downloading ->
  (forall loaders, Forall P loaders -> P (Dispatching loaders)) ->
  forall loader, P loader.
Proof.
  intros HBase HBuiltin HThirdParty HDownloading HDispatching.
  fix IH 1. intros [| | | |loaders]; try assumption.
  apply HDispatching.
  induction loaders as [|l loaders IHloaders]; constructor; [apply IH|apply IHloaders].
Qed.

(** ** What a loader does to the world

    Whatever the imports and the installer do to the world along a
    preorder [R], a loader does no more. *)

Section Frame.
Context `{X : Externals}.
Variable R : relation World.
Context `{!PreOrder R}.
Hypothesis R_import : forall name lg w, R w (import_module name (lg, w)).2.2.
Hypothesis R_tmp : forall w, R w (NamedTemporaryFile w).2.
Hypothesis R_exec : forall cmd out_file w, R w (execute_command cmd out_file w).2.
#[local] Set Default Proof Using "All".

Lemma moves_ret {A} (a : A) : moves_along R (ret a).
Proof. intros env. simpl. reflexivity. Qed.

Lemma moves_raise {A} e : moves_along R (@raise Env A e).
Proof. intros env. simpl. reflexivity. Qed.

Lemma moves_bind {A B} (m : M Env A) (k : A -> M Env B) :
  moves_along R m -> (forall a, moves_along R (k a)) -> moves_along R (bind m k).
Proof.
  intros Hm Hk env. unfold bind. specialize (Hm env).
  destruct (m env) as [[a|e] env1]; simpl in *; [|done].
  etrans; [exact Hm|apply Hk].
Qed.

Lemma moves_try_except {A} (body : M Env A) (handler : PyError -> option (M Env A)) :
  moves_along R body ->
  (forall e h, handler e = Some h -> moves_along R h) ->
  moves_along R (try_except body handler).
Proof.
  intros Hbody Hhandler env. unfold try_except. specialize (Hbody env).
  destruct (body env) as [[a|e] env1]; simpl in *; [done|].
  destruct (handler e) as [h|] eqn:Hh; [|done].
  etrans; [exact Hbody|by eapply Hhandler].
Qed.

Lemma moves_log lvl msg args : moves_along R (log lvl msg args).
Proof. intros env. simpl. reflexivity. Qed.

Lemma moves_in_world {A} (f : World -> A * World) :
  (forall w, R w (f w).2) -> moves_along R (in_world f).
Proof.
  intros Hf env. unfold in_world. specialize (Hf (world env)).
  by destruct (f (world env)).
Qed.

Lemma moves_importing name : moves_along R (importing name).
Proof.
  intros env. unfold importing. pose proof (R_import name (logger env) (world env)) as H.
  by destruct (import_module name _) as [imported [lg w]].
Qed.

Lemma moves_check_plugin_version plugin_module plugin_name :
  moves_along R (_check_plugin_version plugin_module plugin_name).
Proof.
  unfold _check_plugin_version.
  repeat case_match; first [apply moves_ret|apply moves_raise].
Qed.

Lemma moves_load_plugin_module module_name plugin_name :
  moves_along R (_load_plugin module_name plugin_name).
Proof.
  unfold _load_plugin. apply moves_bind; [apply moves_importing|].
  intros [m|message|e]; [|apply moves_raise|apply moves_raise].
  apply moves_bind; [apply moves_check_plugin_version|]. intros _. apply moves_ret.
Qed.

Lemma moves_builtin project name version pmn :
  moves_along R (BuiltinPluginLoader project name version pmn).
Proof.
  unfold BuiltinPluginLoader.
  apply moves_bind; [apply moves_log|]. intros _.
  apply moves_bind; [apply moves_load_plugin_module|]. intros m.
  apply moves_bind; [apply moves_log|]. intros _. apply moves_ret.
Qed.

Lemma moves_thirdparty project name version pmn :
  moves_along R (ThirdPartyPluginLoader project name version pmn).
Proof.
  unfold ThirdPartyPluginLoader.
  apply moves_bind.
  { repeat case_match; first [apply moves_ret|apply moves_raise]. }
  intros thirdparty_plugin.
  apply moves_bind; [apply moves_log|]. intros _.
  apply moves_bind; [apply moves_load_plugin_module|]. intros m.
  apply moves_bind; [apply moves_log|]. intros _. apply moves_ret.
Qed.

Lemma moves_install name version pmn :
  moves_along R (_install_external_plugin name version pmn).
Proof.
  unfold _install_external_plugin.
  case_match; [apply moves_raise|].
  apply moves_bind.
  { repeat case_match; first [apply moves_ret|apply moves_raise]. }
  intros pip_package.
  apply moves_bind; [apply moves_in_world, R_tmp|]. intros log_file_name.
  apply moves_bind; [apply moves_in_world, R_exec|]. intros result.
  case_match; [|apply moves_ret].
  apply moves_bind; [|intros _; apply moves_raise].
  intros env. simpl. reflexivity.
Qed.

Lemma moves_downloading project name version pmn :
  moves_along R (DownloadingPluginLoader project name version pmn).
Proof.
  unfold DownloadingPluginLoader.
  apply moves_bind; [apply moves_log|]. intros _.
  apply moves_bind.
  - apply moves_try_except.
    + apply moves_bind; [apply moves_install|]. intros _.
      apply moves_bind; [apply moves_log|]. intros _. apply moves_ret.
    + intros e h Hh. destruct (is_missing e); [|done]. simplify_eq.
      apply moves_bind; [apply moves_log|]. intros _. apply moves_ret.
  - intros [|]; [apply moves_thirdparty|apply moves_ret].
Qed.

Lemma moves_dispatch (loader : list PluginLoader) :
  Forall (fun l : PluginLoader =>
            forall project name version pmn, moves_along R (l project name version pmn))
    loader ->
  forall last project name version pmn,
    moves_along R (dispatch loader last project name version pmn).
Proof.
  induction 1 as [|l rest Hl Hrest IH]; intros last project name version pmn; simpl.
  - destruct last; apply moves_raise.
  - apply moves_try_except; [apply Hl|].
    intros e h Hh. destruct (is_missing e); [|done]. simplify_eq. apply IH.
Qed.

Lemma moves_load_plugin (loader : Loader) project name version pmn :
  moves_along R (load_plugin loader project name version pmn).
Proof.
  revert project name version pmn.
  induction loader as [| | | |loaders IH] using Loader_ind;
    intros project name version pmn; simpl.
  - apply moves_ret.
  - apply moves_builtin.
  - apply moves_thirdparty.
  - apply moves_downloading.
  - unfold DispatchingPluginLoader. apply moves_dispatch.
    by apply Forall_fmap.
Qed.

End Frame.

Section Properties.
Context `{X : Externals} `{C : !PluginCode} `{E : ExecutionManager}.

(** ** The dispatching loader *)

Lemma dispatch_fall_through pre post last project name version pmn env last' env' :
  fall_through pre last project name version pmn env = Some (last', env') ->
  dispatch (pre ++ post) last project name version pmn env
  = dispatch post last' project name version pmn env'.
Proof.
  revert last env.
  induction pre as [|l pre IH]; intros last env H; simpl in *.
  - by inversion H.
  - unfold try_except.
    destruct (l project name version pmn env) as [[m|e] env1]; [done|].
    destruct (is_missing e); [|done].
    by apply IH.
Qed.

Lemma dispatch_step_final l post last project name version pmn env out env' :
  l project name version pmn env = (out, env') ->
  (forall e, out = Raise e -> is_missing e = false) ->
  dispatch (l :: post) last project name version pmn env = (out, env').
Proof.
  intros Hl Hout. simpl. unfold try_except. rewrite Hl.
  destruct out as [m|e]; [done|].
  by rewrite (Hout e eq_refl).
Qed.

Lemma dispatch_last_missing l last project name version pmn env e env' :
  l project name version pmn env = (Raise e, env') ->
  is_missing e = true ->
  dispatch [l] last project name version pmn env = (Raise e, env').
Proof.
  intros Hl He. simpl. unfold try_except. rewrite Hl, He. done.
Qed.

(** An outcome is settled by what was returned or raised; the state is
    whatever the run left. *)
Lemma outcome_split {S A} (run : result A * S) (out : result A) :
  run.1 = out -> run = (out, run.2).
Proof. destruct run as [out' s]. simpl. by intros ->. Qed.

Lemma fall_through_split loader last_problem project name version pmn env last :
  fst <$> fall_through loader last_problem project name version pmn env = Some last ->
  fall_through loader last_problem project name version pmn env
  = Some (last,
          (default (last, env)
             (fall_through loader last_problem project name version pmn env)).2).
Proof.
  destruct (fall_through _ _ _ _ _ _ _) as [[last' env']|]; simpl; [|done].
  by intros [= ->].
Qed.

(** C4: the strategies are tried in order; the outcome of the first one
    that does not raise [MissingPluginException] is the outcome of the
    dispatching loader, whatever follows it, and the earlier errors are
    dropped; when the last strategy raises [MissingPluginException] too, that
    last error is what the caller gets. *)
Theorem C4_dispatch_in_order pre l post project name version pmn env last env1 out env2 :
  fall_through pre None project name version pmn env = Some (last, env1) ->
  l project name version pmn env1 = (out, env2) ->
  ((forall e, out = Raise e -> is_missing e = false) ->
   DispatchingPluginLoader (pre ++ l :: post) project name version pmn env = (out, env2))
  /\ (forall e, out = Raise e -> is_missing e = true ->
      DispatchingPluginLoader (pre ++ [l]) project name version pmn env = (Raise e, env2)).
Proof.
  intros Hpre Hl. unfold DispatchingPluginLoader. split.
  - intros Hout.
    rewrite (dispatch_fall_through _ _ _ _ _ _ _ _ _ _ Hpre).
    by apply dispatch_step_final.
  - intros e -> He.
    rewrite (dispatch_fall_through _ _ _ _ _ _ _ _ _ _ Hpre).
    by apply dispatch_last_missing.
Qed.

Lemma dispatch_aborts pre l post project name version pmn env last env1 e env2 :
  fall_through pre None project name version pmn env = Some (last, env1) ->
  l project name version pmn env1 = (Raise e, env2) ->
  is_missing e = false ->
  DispatchingPluginLoader (pre ++ l :: post) project name version pmn env = (Raise e, env2).
Proof.
  intros Hpre Hl He. unfold DispatchingPluginLoader.
  rewrite (dispatch_fall_through _ _ _ _ _ _ _ _ _ _ Hpre).
  apply dispatch_step_final; [done|].
  intros e' Heq. by simplify_eq.
Qed.

(** C5: an error other than [MissingPluginException] raised by a strategy
    reaches the caller as it is, in the state that strategy left: the
    strategies after it are not run, whatever they are. *)
Theorem C5_other_error_aborts pre l post post' project name version pmn env last env1 e env2 :
  fall_through pre None project name version pmn env = Some (last, env1) ->
  l project name version pmn env1 = (Raise e, env2) ->
  is_missing e = false ->
  DispatchingPluginLoader (pre ++ l :: post) project name version pmn env = (Raise e, env2)
  /\ DispatchingPluginLoader (pre ++ l :: post) project name version pmn env
     = DispatchingPluginLoader (pre ++ l :: post') project name version pmn env.
Proof.
  intros Hpre Hl He.
  rewrite !(dispatch_aborts pre l _ _ _ _ _ _ _ _ _ _ Hpre Hl He). done.
Qed.

(** ** The third-party loader and the [vcs:] protocol *)

Lemma vcs_not_pypi name :
  startswith name VCS_PLUGIN_PROTOCOL = true -> startswith name PYPI_PLUGIN_PROTOCOL = false.
Proof.
  unfold startswith, VCS_PLUGIN_PROTOCOL, PYPI_PLUGIN_PROTOCOL.
  destruct name as [|c name]; [done|]. cbn [String.prefix].
  destruct (Ascii.ascii_dec "v" c) as [<-|]; [done|discriminate].
Qed.

(** C6, as the code has it: the third-party loader refuses a [vcs:]
    identifier that comes without a module name with
    [UnspecifiedPluginNameException], leaving logger and world untouched (no
    import is attempted by it); in a chain it does so in the state the
    earlier strategies left, and the chain stops there. *)
Theorem C6_thirdparty_requires_module_name project name version pmn env :
  startswith name VCS_PLUGIN_PROTOCOL = true ->
  truthy pmn = false ->
  ThirdPartyPluginLoader project name version pmn env
  = (Raise (UnspecifiedPluginNameException name), env)
  /\ forall pre post env0 last,
       fall_through pre None project name version pmn env0 = Some (last, env) ->
       DispatchingPluginLoader (pre ++ ThirdPartyPluginLoader :: post)
         project name version pmn env0
       = (Raise (UnspecifiedPluginNameException name), env).
Proof.
  intros Hvcs Hpmn.
  assert (ThirdPartyPluginLoader project name version pmn env
          = (Raise (UnspecifiedPluginNameException name), env)) as Htp.
  { unfold ThirdPartyPluginLoader, bind, raise.
    by rewrite (vcs_not_pypi _ Hvcs), Hvcs, Hpmn. }
  split; [done|].
  intros pre post env0 last Hpre.
  by apply (dispatch_aborts pre _ post _ _ _ _ _ _ _ _ _ Hpre Htp).
Qed.

(** ** The version gate *)

Lemma check_plugin_version_unconstrained plugin_module plugin_name env :
  truthy (module_pyb_version plugin_module) = false ->
  _check_plugin_version plugin_module plugin_name env = (Ok tt, env).
Proof. intros H. unfold _check_plugin_version. by rewrite H. Qed.

Lemma check_plugin_version_incompatible plugin_module plugin_name text env :
  module_pyb_version plugin_module = Some text ->
  text <> "" ->
  specifier_valid text = true ->
  contains (mkSpecifierSet text true) PYB_VERSION = false ->
  _check_plugin_version plugin_module plugin_name env
  = (Raise (IncompatiblePluginException plugin_name (mkSpecifierSet text true) PYB_VERSION),
     env).
Proof.
  intros Hattr Hne Hvalid Hcontains. unfold _check_plugin_version.
  rewrite Hattr. simpl.
  destruct (String.eqb_spec text "") as [|_]; [done|]. simpl.
  by rewrite Hvalid, Hcontains.
Qed.

Lemma load_plugin_imported module_name plugin_name env plugin_module lg' w' :
  import_module module_name (logger env, world env) = (Module_ plugin_module, (lg', w')) ->
  _load_plugin module_name plugin_name env
  = match _check_plugin_version plugin_module plugin_name (mkEnv lg' w') with
    | (Ok _, env') => (Ok plugin_module, env')
    | (Raise e, env') => (Raise e, env')
    end.
Proof.
  intros Himport. unfold _load_plugin, bind, importing. rewrite Himport.
  by destruct (_check_plugin_version _ _ _) as [[[]|e] env'].
Qed.

(** C7: a module without a compatibility requirement passes the gate,
    which then does nothing; a module that requires [>=2.0,<3.0] of a host
    at version [1.9.0], which the packaging library finds outside the range,
    is refused, by the gate and by the load that imported it, with an
    [IncompatiblePluginException] holding the plugin name, the requirement
    and the host version. *)
Theorem C7_version_gate plugin_module plugin_name env :
  (truthy (module_pyb_version plugin_module) = false ->
   _check_plugin_version plugin_module plugin_name env = (Ok tt, env))
  /\ (pyb_version = "1.9.0" ->
      specifier_valid ">=2.0,<3.0" = true ->
      contains (mkSpecifierSet ">=2.0,<3.0" true) (mkVersion "1.9.0") = false ->
      module_pyb_version plugin_module = Some ">=2.0,<3.0" ->
      _check_plugin_version plugin_module plugin_name env
      = (Raise (IncompatiblePluginException plugin_name
                  (mkSpecifierSet ">=2.0,<3.0" true) (mkVersion "1.9.0")), env)
      /\ forall module_name lg w,
           import_module module_name (lg, w)
           = (Module_ plugin_module, (logger env, world env)) ->
           _load_plugin module_name plugin_name (mkEnv lg w)
           = (Raise (IncompatiblePluginException plugin_name
                       (mkSpecifierSet ">=2.0,<3.0" true) (mkVersion "1.9.0")), env)).
Proof.
  split; [apply check_plugin_version_unconstrained|].
  intros Hhost Hvalid Hcontains Hattr.
  assert (PYB_VERSION = mkVersion "1.9.0") as Hv.
  { unfold PYB_VERSION. by rewrite Hhost. }
  assert (forall env', _check_plugin_version plugin_module plugin_name env'
          = (Raise (IncompatiblePluginException plugin_name
                      (mkSpecifierSet ">=2.0,<3.0" true) (mkVersion "1.9.0")), env'))
    as Hgate.
  { intros env'. rewrite <- Hv.
    apply check_plugin_version_incompatible; [done|done|done|by rewrite Hv]. }
  split; [apply Hgate|].
  intros module_name lg w Himport.
  rewrite (load_plugin_imported module_name plugin_name (mkEnv lg w)
             plugin_module (logger env) (world env) Himport).
  simpl. rewrite Hgate. by destruct env.
Qed.

(** ** Installing and downloading *)

Lemma install_unsupported name version pmn env :
  has_protocol name = false ->
  _install_external_plugin name version pmn env
  = (Raise (MissingPluginException name
              "Only plugins starting with '('pypi:', 'vcs:')' are currently supported"),
     env).
Proof.
  unfold has_protocol, _install_external_plugin. intros H.
  apply orb_false_elim in H as [-> ->]. done.
Qed.

Lemma install_runs_installer name version pmn env :
  has_protocol name = true ->
  _install_external_plugin name version pmn env
  = if (installer_status name version (world env) =? 0)%Z
    then (Ok tt, mkEnv (logger env) (installer_world name version (world env)))
    else (Raise (install_failure name version),
          mkEnv (logger env
                 ++ [mkLog ERROR ("The following pip error was encountered:" +:+ newline
                                  +:+ installer_log name version (world env)) []])
            (installer_world name version (world env))).
Proof.
  unfold has_protocol, _install_external_plugin. intros H.
  unfold installer_log, installer_world, installer_status, installer_run, install_failure,
    pip_package_of.
  destruct (startswith name PYPI_PLUGIN_PROTOCOL) eqn:Hpypi; simpl in H |- *.
  - unfold bind, ret, in_world, log, raise. simpl.
    destruct (NamedTemporaryFile (world env)) as [f w1]. simpl.
    destruct (execute_command _ f w1) as [rc w2]. simpl.
    by destruct (rc =? 0)%Z.
  - rewrite H. simpl.
    unfold bind, ret, in_world, log, raise. simpl.
    destruct (NamedTemporaryFile (world env)) as [f w1]. simpl.
    destruct (execute_command _ f w1) as [rc w2]. simpl.
    by destruct (rc =? 0)%Z.
Qed.

Lemma downloading_unsupported project name version pmn env :
  has_protocol name = false ->
  DownloadingPluginLoader project name version pmn env
  = (Ok None,
     mkEnv (logger env
            ++ [mkLog INFO "Downloading missing plugin {0}" [AStr (display_name name version)];
                mkLog ERROR "Could not install plugin {0}: {1}."
                  [AStr (display_name name version);
                   AErr (MissingPluginException name
                     "Only plugins starting with '('pypi:', 'vcs:')' are currently supported")]])
       (world env)).
Proof.
  intros H. unfold DownloadingPluginLoader, bind, try_except.
  unfold log at 1. cbn beta iota.
  rewrite install_unsupported by done. simpl.
  unfold log, ret. simpl. by rewrite <- app_assoc.
Qed.

Lemma downloading_installer_fails project name version pmn env :
  has_protocol name = true ->
  installer_status name version (world env) <> 0%Z ->
  DownloadingPluginLoader project name version pmn env
  = (Ok None,
     mkEnv (logger env ++ failed_download_log name version (world env))
       (installer_world name version (world env))).
Proof.
  intros H Hrc. unfold DownloadingPluginLoader, bind, try_except.
  unfold log at 1. cbn beta iota.
  rewrite install_runs_installer by done. simpl.
  destruct (Z.eqb_spec (installer_status name version (world env)) 0) as [|_]; [done|].
  simpl. unfold log, ret, failed_download_log. simpl.
  by rewrite <- !app_assoc.
Qed.

(** C10: when the installation fails, because the identifier has neither
    protocol or because the installer exits with a nonzero status, the
    downloading loader raises nothing and returns [None]; a dispatching
    loader that ends with it, the strategies before it having raised
    [MissingPluginException], returns that [None] to its caller. *)
Theorem C10_failed_download_returns_None project name version pmn env :
  installation_fails name version (world env) = true ->
  exists env',
    DownloadingPluginLoader project name version pmn env = (Ok None, env')
    /\ forall pre env0 last,
         fall_through pre None project name version pmn env0 = Some (last, env) ->
         DispatchingPluginLoader (pre ++ [DownloadingPluginLoader])
           project name version pmn env0
         = (Ok None, env').
Proof.
  intros Hfails.
  assert (exists env', DownloadingPluginLoader project name version pmn env = (Ok None, env'))
    as [env' Hd].
  { unfold installation_fails in Hfails.
    destruct (has_protocol name) eqn:Hp; simpl in Hfails.
    - eexists. apply downloading_installer_fails; [done|].
      intros Hz. by rewrite Hz in Hfails.
    - eexists. by apply downloading_unsupported. }
  exists env'. split; [done|].
  intros pre env0 last Hpre. unfold DispatchingPluginLoader.
  rewrite (dispatch_fall_through _ _ _ _ _ _ _ _ _ _ Hpre).
  by apply dispatch_step_final.
Qed.

(** C1, as the code has it: for a [pypi:] identifier without a version
    whose installer run exits with a nonzero status, the installation raises
    [MissingPluginException] with the name and the package reference; the
    installer's log text goes to the logger, not into the exception.  The
    downloading loader catches the exception, logs it and returns [None], and
    so does a dispatching loader that ends with it. *)
Theorem C1_failed_install_is_logged project name version pmn env :
  startswith name PYPI_PLUGIN_PROTOCOL = true ->
  truthy version = false ->
  installer_status name version (world env) <> 0%Z ->
  _install_external_plugin name version pmn env
  = (Raise (MissingPluginException name
              ("Failed to install plugin from " +:+ str_replace name PYPI_PLUGIN_PROTOCOL "")),
     mkEnv (logger env
            ++ [mkLog ERROR ("The following pip error was encountered:" +:+ newline
                             +:+ installer_log name version (world env)) []])
       (installer_world name version (world env)))
  /\ DownloadingPluginLoader project name version pmn env
     = (Ok None,
        mkEnv (logger env ++ failed_download_log name version (world env))
          (installer_world name version (world env)))
  /\ forall pre env0 last,
       fall_through pre None project name version pmn env0 = Some (last, env) ->
       DispatchingPluginLoader (pre ++ [DownloadingPluginLoader])
         project name version pmn env0
       = (Ok None,
          mkEnv (logger env ++ failed_download_log name version (world env))
            (installer_world name version (world env))).
Proof.
  intros Hpypi Hversion Hrc.
  assert (has_protocol name = true) as Hp.
  { unfold has_protocol. by rewrite Hpypi. }
  split; [|split].
  - rewrite install_runs_installer by done.
    destruct (Z.eqb_spec (installer_status name version (world env)) 0) as [|_]; [done|].
    unfold install_failure, pip_package_of. by rewrite Hpypi, Hversion.
  - by apply downloading_installer_fails.
  - intros pre env0 last Hpre. unfold DispatchingPluginLoader.
    rewrite (dispatch_fall_through _ _ _ _ _ _ _ _ _ _ Hpre).
    apply dispatch_step_final; [|done].
    by apply downloading_installer_fails.
Qed.

(** ** The plugin registry *)

Lemma keeps_ret {A} (a : A) : keeps_plugins (ret a).
Proof. done. Qed.

Lemma keeps_raise {A} e : keeps_plugins (@raise Reactor A e).
Proof. done. Qed.

Lemma keeps_bind {A B} (m : M Reactor A) (k : A -> M Reactor B) :
  keeps_plugins m -> (forall a, keeps_plugins (k a)) -> keeps_plugins (bind m k).
Proof.
  intros Hm Hk r. unfold bind. specialize (Hm r).
  destruct (m r) as [[a|e] r1]; simpl in *; [|done].
  by rewrite Hk.
Qed.

Lemma keeps_with_env {A} (m : M Env A) : keeps_plugins (with_env m).
Proof. intros r. unfold with_env. by destruct (m (reactor_env r)). Qed.

Lemma keeps_with_execution_manager {A} (m : EM -> result A * EM) :
  keeps_plugins (with_execution_manager m).
Proof. intros r. unfold with_execution_manager. by destruct (m (execution_manager r)). Qed.

Lemma keeps_for_each {A} (l : list A) (body : A -> M Reactor unit) :
  (forall x, keeps_plugins (body x)) -> keeps_plugins (for_each l body).
Proof.
  intros Hbody. induction l as [|x l IH]; simpl.
  - apply keeps_ret.
  - apply keeps_bind; [apply Hbody|done].
Qed.

Create HintDb keeps.
#[local] Hint Resolve keeps_ret keeps_raise keeps_with_env keeps_with_execution_manager
  keeps_for_each : keeps.

Lemma keeps_register_candidate injected candidate :
  keeps_plugins (register_candidate injected candidate).
Proof.
  unfold register_candidate.
  repeat case_match; try apply keeps_bind; intros; auto with keeps.
Qed.

Lemma keeps_collect project_module :
  keeps_plugins (collect_tasks_and_actions_and_initializers project_module).
Proof.
  unfold collect_tasks_and_actions_and_initializers.
  apply keeps_for_each. apply keeps_register_candidate.
Qed.

Lemma grows_refl r : grows r r.
Proof.
  exists []. rewrite app_nil_r. split; [done|]. split; [constructor|].
  intros x Hx. by apply elem_of_nil in Hx.
Qed.

Lemma grows_same r0 r1 r2 : _plugins r1 = _plugins r2 -> grows r0 r1 -> grows r0 r2.
Proof. intros Heq (added & H & Hrest). exists added. by rewrite <- Heq. Qed.

Lemma grows_trans r1 r2 r3 : grows r1 r2 -> grows r2 r3 -> grows r1 r3.
Proof.
  intros (a1 & H1 & Hd1 & Hn1) (a2 & H2 & Hd2 & Hn2).
  exists (a1 ++ a2). split; [by rewrite H2, H1, app_assoc|]. split.
  - apply NoDup_app. split; [done|]. split; [|done].
    intros x Hx Hx2. apply (Hn2 x Hx2). rewrite H1. apply elem_of_app. by right.
  - intros x Hx. apply elem_of_app in Hx as [Hx|Hx]; [by apply Hn1|].
    intros Hr. apply (Hn2 x Hx). rewrite H1. apply elem_of_app. by left.
Qed.

#[local] Instance grows_preorder : PreOrder grows.
Proof. split; [intros r; apply grows_refl|intros r1 r2 r3; apply grows_trans]. Qed.

#[local] Instance same_plugins_preorder : PreOrder same_plugins.
Proof.
  split; [by intros r|]. intros r1 r2 r3 H1 H2. unfold same_plugins in *. congruence.
Qed.




Lemma keeps_growing {A} (m : M Reactor A) : keeps_plugins m -> growing m.
Proof. intros Hm r. apply (grows_same r r); [by rewrite Hm|apply grows_refl]. Qed.

Lemma growing_bind {A B} (m : M Reactor A) (k : A -> M Reactor B) :
  growing m -> (forall a, growing (k a)) -> growing (bind m k).
Proof.
  intros Hm Hk r. unfold bind. specialize (Hm r).
  destruct (m r) as [[a|e] r1]; simpl in *; [|done].
  eapply grows_trans; [exact Hm|apply Hk].
Qed.

(** The loader of a reactor moves the reactor along any preorder on the
    plugin lists along which the imports move it. *)
Lemma load_moves (R : relation Reactor) `{!PreOrder R} import_ plugin version pmn r :
  (forall r0 r1 r2 : Reactor, _plugins r1 = _plugins r2 -> R r0 r1 -> R r0 r2) ->
  (forall name lg r0, R r0 (import_ name (lg, r0)).2.2) ->
  R r (load import_ plugin version pmn r).2.
Proof.
  intros Hsame Himport. unfold load.
  assert (forall w : Reactor, R w (@NamedTemporaryFile (reentrant import_) w).2) as Htmp.
  { intros w. simpl. destruct (NamedTemporaryFile _) as [n w']. simpl.
    by apply (Hsame w w). }
  assert (forall cmd out_file (w : Reactor),
            R w (@execute_command (reentrant import_) cmd out_file w).2) as Hexec.
  { intros cmd out_file w. simpl. destruct (execute_command _ _ _) as [status w']. simpl.
    by apply (Hsame w w). }
  pose proof (@moves_load_plugin (reentrant import_) R _ Himport Htmp Hexec
                (plugin_loader r) (project r) plugin version pmn (enter import_ r)) as H.
  destruct (load_plugin _ _ _ _ _ _) as [plugin_module e]. simpl in *.
  by apply (Hsame r (world e)).
Qed.

Lemma growing_load import_ plugin version pmn :
  import_grows import_ -> growing (load import_ plugin version pmn).
Proof. intros Himport r. apply load_moves; [apply _|apply grows_same|exact Himport]. Qed.

Lemma keeps_load import_ plugin version pmn :
  import_keeps import_ -> keeps_plugins (load import_ plugin version pmn).
Proof.
  intros Himport r. apply (load_moves same_plugins); [|exact Himport].
  unfold same_plugins. congruence.
Qed.

Lemma growing_import_plugin_with import_ plugin version pmn :
  import_grows import_ -> growing (import_plugin_with import_ plugin version pmn).
Proof.
  intros Himport. unfold import_plugin_with.
  apply growing_bind; [apply keeps_growing; auto with keeps|]. intros _.
  apply growing_bind; [by apply growing_load|].
  intros plugin_module. apply keeps_growing, keeps_collect.
Qed.

Lemma keeps_import_plugin_with import_ plugin version pmn :
  import_keeps import_ -> keeps_plugins (import_plugin_with import_ plugin version pmn).
Proof.
  intros Himport. unfold import_plugin_with.
  apply keeps_bind; [auto with keeps|]. intros _.
  apply keeps_bind; [by apply keeps_load|].
  intros plugin_module. apply keeps_collect.
Qed.

Lemma import_plugin_unfold import_ plugin version pmn r :
  import_plugin_with import_ plugin version pmn (set_plugins (_plugins r ++ [plugin]) r)
  = match load import_ plugin version pmn (entered plugin version r) with
    | (Ok plugin_module, r') => collect_tasks_and_actions_and_initializers plugin_module r'
    | (Raise e, r') => (Raise e, r')
    end.
Proof. done. Qed.

Lemma list_remove_middle plugin (l added : list string) :
  plugin ∉ l -> list_remove plugin (l ++ plugin :: added) = Some (l ++ added).
Proof.
  induction l as [|y l IH]; intros Hnotin; simpl.
  - by rewrite decide_True.
  - apply not_elem_of_cons in Hnotin as [Hne Hnotin].
    rewrite decide_False by done. by rewrite IH.
Qed.

(** A call for a plugin that is not in the list: what the import of the
    plugin required is appended after it, and stays when the plugin
    goes. *)
Lemma require_plugin_with_new import_ plugin version pmn r :
  import_grows import_ ->
  plugin ∉ _plugins r ->
  exists added,
    _plugins (import_plugin_with import_ plugin version pmn
                (set_plugins (_plugins r ++ [plugin]) r)).2
    = _plugins r ++ plugin :: added
    /\ NoDup added
    /\ (plugin ∉ added)
    /\ (forall x, x ∈ added -> x ∉ _plugins r)
    /\ require_plugin_with import_ plugin version pmn r
       = match import_plugin_with import_ plugin version pmn
                 (set_plugins (_plugins r ++ [plugin]) r) with
         | (Ok a, r') => (Ok a, r')
         | (Raise e, r') => (Raise e, set_plugins (_plugins r ++ added) r')
         end.
Proof.
  intros Himport Hnotin.
  destruct (growing_import_plugin_with import_ plugin version pmn Himport
              (set_plugins (_plugins r ++ [plugin]) r)) as (added & Hplugins & Hd & Hn).
  simpl in Hplugins, Hn. rewrite <- app_assoc in Hplugins. simpl in Hplugins.
  exists added. split; [exact Hplugins|]. split; [exact Hd|].
  assert (plugin ∉ added) as Hp.
  { intros Hx. apply (Hn _ Hx), elem_of_app. right. by apply list_elem_of_singleton. }
  split; [exact Hp|]. split.
  { intros x Hx Hr. apply (Hn _ Hx), elem_of_app. by left. }
  unfold require_plugin_with. rewrite decide_False by done.
  unfold try_except, bind, plugins_append. cbn beta iota.
  destruct (import_plugin_with _ _ _ _ _) as [[a|e] r']; [done|].
  simpl in Hplugins. unfold plugins_remove, raise.
  by rewrite Hplugins, list_remove_middle.
Qed.

Lemma growing_require_plugin_with import_ plugin version pmn :
  import_grows import_ -> growing (require_plugin_with import_ plugin version pmn).
Proof.
  intros Himport r.
  destruct (decide (plugin ∈ _plugins r)) as [Hp|Hp].
  - unfold require_plugin_with. rewrite decide_True by done. apply grows_refl.
  - destruct (require_plugin_with_new import_ plugin version pmn r Himport Hp)
      as (added & Hplugins & Hd & Hnp & Hn & ->).
    destruct (import_plugin_with _ _ _ _ _) as [[a|e] r']; simpl in *.
    + exists (plugin :: added). split; [done|]. split.
      * by apply NoDup_cons.
      * intros x Hx. apply elem_of_cons in Hx as [->|Hx]; [done|by apply Hn].
    + by exists added.
Qed.

Lemma grows_run_body (require : string -> option string -> option string -> M Reactor unit)
    name body r :
  (forall plugin version pmn, growing (require plugin version pmn)) ->
  grows r (run_body require name body r).2.
Proof.
  intros Hrequire. revert r.
  induction body as [|e|plugin version pmn next IH]; intros r; simpl.
  - unfold import_rest. destruct (import_module _ _) as [imported [lg w]]. simpl.
    apply (grows_same r r); [done|apply grows_refl].
  - apply grows_refl.
  - specialize (Hrequire plugin version pmn r).
    destruct (require plugin version pmn r) as [outcome r1]. simpl in Hrequire.
    eapply grows_trans; [exact Hrequire|apply IH].
Qed.

Lemma import_at_unfold depth name lg r :
  import_at depth name (lg, r)
  = let r0 := with_reactor_env (mkEnv lg (world (reactor_env r))) r in
    let run :=
      run_body
        (match depth with
         | O => fun _ _ _ => raise (RecursionError "maximum recursion depth exceeded")
         | S d => require_plugin_with (import_at d)
         end)
        name (module_body name (world (reactor_env r0))) r0 in
    (run.1, (logger (reactor_env run.2), run.2)).
Proof. destruct depth; simpl; by destruct (run_body _ _ _ _). Qed.

(** Imports only let the plugin list grow, however deep they nest. *)
Lemma import_at_grows depth : import_grows (import_at depth).
Proof.
  induction depth as [|d IH]; intros name lg r; rewrite import_at_unfold; cbn zeta; simpl.
  - eapply (grows_trans _ (with_reactor_env _ r)); [by apply (grows_same r r), grows_refl|].
    apply grows_run_body. intros plugin version pmn. apply keeps_growing, keeps_raise.
  - eapply (grows_trans _ (with_reactor_env _ r)); [by apply (grows_same r r), grows_refl|].
    apply grows_run_body. intros plugin version pmn. by apply growing_require_plugin_with.
Qed.

(** Imports of modules that require nothing leave the plugin list alone. *)
Lemma import_at_keeps depth : requires_nothing -> import_keeps (import_at depth).
Proof.
  intros Hnothing name lg r. rewrite import_at_unfold. cbn zeta. simpl.
  rewrite Hnothing. destruct depth; simpl; unfold import_rest;
    by destruct (import_module _ _) as [imported [lg' w]].
Qed.


Lemma require_plugin_old depth plugin version pmn r :
  plugin ∈ _plugins r -> require_plugin depth plugin version pmn r = (Ok tt, r).
Proof. intros H. unfold require_plugin, require_plugin_with. by rewrite decide_True. Qed.

Lemma require_plugin_new depth plugin version pmn r :
  plugin ∉ _plugins r ->
  exists added,
    _plugins (import_plugin depth plugin version pmn
                (set_plugins (_plugins r ++ [plugin]) r)).2
    = _plugins r ++ plugin :: added
    /\ NoDup added
    /\ (plugin ∉ added)
    /\ (forall x, x ∈ added -> x ∉ _plugins r)
    /\ (requires_nothing -> added = [])
    /\ require_plugin depth plugin version pmn r
       = match import_plugin depth plugin version pmn
                 (set_plugins (_plugins r ++ [plugin]) r) with
         | (Ok a, r') => (Ok a, r')
         | (Raise e, r') => (Raise e, set_plugins (_plugins r ++ added) r')
         end.
Proof.
  intros Hnotin.
  destruct (require_plugin_with_new (import_at depth) plugin version pmn r
              (import_at_grows depth) Hnotin) as (added & Hplugins & Hd & Hnp & Hn & Heq).
  exists added. repeat (split; [done|]). split; [|exact Heq].
  intros Hnothing.
  pose proof (keeps_import_plugin_with (import_at depth) plugin version pmn
                (import_at_keeps depth Hnothing)
                (set_plugins (_plugins r ++ [plugin]) r)) as Hkeeps.
  rewrite Hplugins in Hkeeps. simpl in Hkeeps.
  apply app_inv_head in Hkeeps. by simplify_eq.
Qed.

(** C8: a plugin that is in the list is not required again: the call
    returns at once and the reactor (logger, world, execution manager and
    plugin list) is the same as before; so a call repeated after a call that
    succeeded changes nothing, whatever version or module name it gives. *)
Theorem C8_require_plugin_idempotent depth plugin version pmn r :
  (plugin ∈ _plugins r -> require_plugin depth plugin version pmn r = (Ok tt, r))
  /\ (forall depth' r1 version' pmn',
        require_plugin depth plugin version pmn r = (Ok tt, r1) ->
        require_plugin depth' plugin version' pmn' r1 = (Ok tt, r1)).
Proof.
  split; [apply require_plugin_old|].
  intros depth' r1 version' pmn' Hfirst. apply require_plugin_old.
  destruct (decide (plugin ∈ _plugins r)) as [Hp|Hp].
  - rewrite require_plugin_old in Hfirst by done. by simplify_eq.
  - destruct (require_plugin_new depth plugin version pmn r Hp)
      as (added & Hplugins & _ & _ & _ & _ & Heq).
    rewrite Heq in Hfirst.
    destruct (import_plugin _ _ _ _ _) as [[a|e] r']; [|done].
    simplify_eq. simpl in Hplugins. rewrite Hplugins. set_solver.
Qed.

(** C3, as the code has it: when the load or the assembly for a plugin
    that is not in the list raises, [require_plugin] raises the same error and
    takes the plugin out of the list again; the plugins that the code of the
    imported module required in the meantime stay in it, after the ones that
    were there before, and the list is what it was before the call when no
    module requires a plugin.  What the failed call did to logger, world and
    execution manager stays. *)
Theorem C3_failed_plugin_is_taken_out depth plugin version pmn r e r' :
  plugin ∉ _plugins r ->
  load_or_assembly_raises depth plugin version pmn r e r' ->
  exists added,
    _plugins r' = _plugins r ++ plugin :: added
    /\ NoDup added
    /\ (plugin ∉ added)
    /\ (forall x, x ∈ added -> x ∉ _plugins r)
    /\ require_plugin depth plugin version pmn r
       = (Raise e, set_plugins (_plugins r ++ added) r')
    /\ (requires_nothing ->
        require_plugin depth plugin version pmn r = (Raise e, set_plugins (_plugins r) r')).
Proof.
  intros Hnotin Hraises.
  destruct (require_plugin_new depth plugin version pmn r Hnotin)
    as (added & Hplugins & Hd & Hnp & Hn & Hnothing & Heq).
  unfold import_plugin in Hplugins, Heq. rewrite import_plugin_unfold in Hplugins, Heq.
  assert (match load (import_at depth) plugin version pmn (entered plugin version r) with
          | (Ok plugin_module, r1) =>
              collect_tasks_and_actions_and_initializers plugin_module r1
          | (Raise e1, r1) => (Raise e1, r1)
          end = (Raise e, r')) as Hrun.
  { destruct Hraises as [Hload|(plugin_module & r2 & Hload & Hcollect)];
      rewrite Hload; [done|exact Hcollect]. }
  rewrite Hrun in Hplugins, Heq. simpl in Hplugins.
  exists added. repeat (split; [done|]).
  intros H. rewrite Heq, (Hnothing H). by rewrite app_nil_r.
Qed.








(** ** Graph assembly *)

Lemma collect_task_dependencies_declared candidate :
  collect_task_dependencies candidate = declared_dependencies candidate.
Proof.
  unfold collect_task_dependencies, declared_dependencies.
  assert (forall ds acc,
    foldl (fun task_dependencies d =>
             match d with
             | Optional ts =>
                 task_dependencies ++ map (fun item => mkTaskDependency item true) ts
             | Plain t => task_dependencies ++ [mkTaskDependency t false]
             end) acc ds
    = acc ++ flat_map (fun d =>
                match d with
                | Plain t => [mkTaskDependency t false]
                | Optional ts => map (fun t => mkTaskDependency t true) ts
                end) ds) as Hfold.
  { induction ds as [|d ds IH]; intros acc; simpl.
    - by rewrite app_nil_r.
    - rewrite IH. destruct d; by rewrite <- app_assoc. }
  destruct (DEPENDS_ATTRIBUTE candidate) as [[|d0 ds]|]; [done| |done].
  by rewrite Hfold.
Qed.

#[local] Arguments entries : simpl never.

Lemma add_task_dependency_entries (names : list Target) (depends_on : Candidate)
    (optional : bool)
    (injected : gmap (option string) (list TaskDependency)) (name : option string) :
  entries (add_task_dependency names depends_on optional injected) name
  = entries injected name
    ++ map snd (filter (fun entry => entry.1 = name)
                  (map (fun t => (target_key t,
                                  mkTaskDependency (reference depends_on) optional))
                     names)).
Proof.
  unfold add_task_dependency, entries. revert injected.
  induction names as [|t names IH]; intros injected; simpl.
  - by rewrite app_nil_r.
  - rewrite IH. rewrite filter_cons. simpl.
    destruct (decide (target_key t = name)) as [<-|Hne].
    + simpl. rewrite lookup_alter_eq.
      destruct (injected !! target_key t) as [l|] eqn:Hl.
      * rewrite Hl. simpl. by rewrite <- app_assoc.
      * rewrite lookup_insert_eq. done.
    + rewrite lookup_alter_ne by done.
      destruct (injected !! target_key t); [done|].
      by rewrite lookup_insert_ne.
Qed.

Lemma harvest_dependents_entries (candidate : Candidate)
    (injected : gmap (option string) (list TaskDependency)) (name : option string) :
  entries (harvest_dependents candidate injected) name
  = entries injected name
    ++ map snd (filter (fun entry => entry.1 = name) (dependents_of candidate)).
Proof.
  unfold harvest_dependents, dependents_of.
  destruct (marked (TASK_ATTRIBUTE candidate)); [|by rewrite app_nil_r].
  assert (forall ds (inj : gmap (option string) (list TaskDependency)),
    entries (foldl (fun injected d =>
                      match d with
                      | Optional ts => add_task_dependency ts candidate true injected
                      | Plain t => add_task_dependency [t] candidate false injected
                      end) inj ds) name
    = entries inj name
      ++ map snd (filter (fun entry => entry.1 = name)
           (flat_map (fun d =>
              match d with
              | Plain t => [(target_key t, mkTaskDependency (reference candidate) false)]
              | Optional ts =>
                  map (fun t => (target_key t,
                                 mkTaskDependency (reference candidate) true)) ts
              end) ds))) as Hfold.
  { induction ds as [|d ds IH]; intros inj; simpl.
    - by rewrite app_nil_r.
    - rewrite IH, filter_app, map_app, app_assoc. f_equal.
      destruct d as [t|ts];
        [apply (add_task_dependency_entries [t])|apply add_task_dependency_entries]. }
  destruct (DEPENDENTS_ATTRIBUTE candidate) as [[|d0 ds]|]; simpl;
    [by rewrite app_nil_r| |by rewrite app_nil_r].
  apply (Hfold (d0 :: ds)).
Qed.

Lemma harvest_entries (project_module : option PluginModule) (name : option string) :
  entries (harvest project_module) name = injected_for project_module name.
Proof.
  unfold harvest, injected_for, accumulated.
  assert (forall cs (inj : gmap (option string) (list TaskDependency)),
    entries (foldl (fun injected candidate => harvest_dependents candidate injected) inj cs)
      name
    = entries inj name
      ++ map snd (filter (fun entry => entry.1 = name) (flat_map dependents_of cs)))
    as Hfold.
  { induction cs as [|c cs IH]; intros inj; simpl.
    - by rewrite app_nil_r.
    - by rewrite IH, filter_app, map_app, app_assoc, harvest_dependents_entries. }
  rewrite Hfold. unfold entries. by rewrite lookup_empty.
Qed.

Lemma register_candidate_recorded injected candidate (r : @Reactor X recorder) :
  exists r',
    @register_candidate X recorder injected candidate r = (Ok tt, r')
    /\ registered_tasks (@execution_manager X recorder r')
       = registered_tasks (@execution_manager X recorder r)
         ++ (if marked (TASK_ATTRIBUTE candidate)
             then [mkTask (normalize_candidate_name candidate) candidate
                     (collect_task_dependencies candidate
                        ++ entries injected (normalize_candidate_name candidate))
                     (default "" (DESCRIPTION_ATTRIBUTE candidate))]
             else []).
Proof.
  unfold register_candidate, entries, registered_tasks.
  destruct (marked (TASK_ATTRIBUTE candidate)).
  - eexists. split; [reflexivity|]. simpl. rewrite omap_app. simpl.
    by destruct (injected !! normalize_candidate_name candidate);
      simpl; rewrite ?app_nil_r.
  - destruct (marked (ACTION_ATTRIBUTE candidate)).
    + eexists. split; [reflexivity|]. simpl. by rewrite omap_app.
    + destruct (marked (INITIALIZER_ATTRIBUTE candidate)).
      * eexists. split; [reflexivity|]. simpl. by rewrite omap_app.
      * eexists. split; [reflexivity|]. by rewrite app_nil_r.
Qed.

Lemma for_each_recorded injected cs (r : @Reactor X recorder) :
  exists r',
    for_each cs (@register_candidate X recorder injected) r = (Ok tt, r')
    /\ registered_tasks (@execution_manager X recorder r')
       = registered_tasks (@execution_manager X recorder r)
         ++ map (fun candidate =>
                   mkTask (normalize_candidate_name candidate) candidate
                     (collect_task_dependencies candidate
                        ++ entries injected (normalize_candidate_name candidate))
                     (default "" (DESCRIPTION_ATTRIBUTE candidate)))
              (filter (fun candidate => marked (TASK_ATTRIBUTE candidate) = true) cs).
Proof.
  revert r. induction cs as [|c cs IH]; intros r.
  - exists r. split; [done|]. by rewrite app_nil_r.
  - destruct (register_candidate_recorded injected c r) as (r1 & Hc & Hr1).
    destruct (IH r1) as (r' & Hcs & Hr').
    exists r'. split.
    + simpl. unfold bind. by rewrite Hc.
    + rewrite Hr', Hr1, filter_cons.
      destruct (marked (TASK_ATTRIBUTE c)).
      * rewrite decide_True by done. by rewrite <- app_assoc.
      * rewrite decide_False by done. by rewrite app_nil_r.
Qed.

(** C9: run against an execution manager that records what it is given,
    the assembler returns normally and registers, in the order of the scan,
    one task for each candidate marked as a task; the dependency list of each
    is the candidate's declared dependencies, in declared order, followed by
    the dependencies the first pass accumulated under the task's name, in the
    order they were accumulated. *)
Theorem C9_declared_then_injected project_module (r : @Reactor X recorder) :
  exists r',
    @collect_tasks_and_actions_and_initializers X recorder project_module r = (Ok tt, r')
    /\ registered_tasks (@execution_manager X recorder r')
       = registered_tasks (@execution_manager X recorder r)
         ++ map (assembled_task project_module)
              (filter (fun candidate => marked (TASK_ATTRIBUTE candidate) = true)
                 (candidates project_module))
    /\ forall t,
         t ∈ map (assembled_task project_module)
               (filter (fun candidate => marked (TASK_ATTRIBUTE candidate) = true)
                  (candidates project_module)) ->
         task_dependencies t
         = declared_dependencies (task_callable t)
           ++ injected_for project_module (task_name t).
Proof.
  unfold collect_tasks_and_actions_and_initializers.
  destruct (for_each_recorded (harvest project_module) (candidates project_module) r)
    as (r' & Hrun & Htasks).
  exists r'. split; [done|]. split.
  - rewrite Htasks. f_equal. apply map_ext. intros c. unfold assembled_task.
    by rewrite collect_task_dependencies_declared, harvest_entries.
  - intros t Ht. apply list_elem_of_fmap in Ht as (c & -> & _). done.
Qed.


(** ** The loaders, further *)

Lemma check_plugin_version_names plugin_module plugin_name env e env' (p : string) :
  _check_plugin_version plugin_module plugin_name env = (Raise e, env') ->
  error_plugin e = Some p ->
  p = plugin_name.
Proof.
  unfold _check_plugin_version, raise, ret.
  destruct (truthy _); [|done].
  destruct (specifier_valid _); [|intros Heq Hp; by simplify_eq/=].
  destruct (contains _ _); simpl; [done|].
  intros Heq Hp. by simplify_eq/=.
Qed.

Lemma load_plugin_names module_name plugin_name env e env' (p : string) :
  _load_plugin module_name plugin_name env = (Raise e, env') ->
  error_plugin e = Some p ->
  p = plugin_name \/ raised_by_import e.
Proof.
  unfold _load_plugin, bind, importing. intros H Hp.
  destruct (import_module module_name (logger env, world env))
    as [[m|msg|e0] [lg' w']] eqn:Himport.
  - destruct (_check_plugin_version m plugin_name _) as [[[]|e'] env1] eqn:Hgate;
      [done|]. simplify_eq. left. by eapply check_plugin_version_names.
  - unfold raise in H. left. by simplify_eq/=.
  - unfold raise in H. simplify_eq. right.
    exists module_name, (logger env, world env). by rewrite Himport.
Qed.

Lemma builtin_names : names_identifier BuiltinPluginLoader.
Proof.
  intros project name version pmn env e env' p H Hp.
  unfold BuiltinPluginLoader, bind, log in H. cbn beta iota in H.
  destruct (_load_plugin _ name _) as [[m|e'] env1] eqn:Hload; [done|].
  simplify_eq. by eapply load_plugin_names.
Qed.

Lemma thirdparty_names : names_identifier ThirdPartyPluginLoader.
Proof.
  intros project name version pmn env e env' p H Hp.
  unfold ThirdPartyPluginLoader, bind, ret, raise, log in H.
  destruct (startswith name PYPI_PLUGIN_PROTOCOL);
    [|destruct (startswith name VCS_PLUGIN_PROTOCOL); [destruct (truthy pmn)|]];
    simpl in H;
    first [left; by simplify_eq/=
          |destruct (_load_plugin _ name _) as [[m|e'] env1] eqn:Hload; [done|];
           simplify_eq; by eapply load_plugin_names].
Qed.

Lemma install_names name version pmn env e env' :
  _install_external_plugin name version pmn env = (Raise e, env') ->
  exists message, e = MissingPluginException name message.
Proof.
  destruct (has_protocol name) eqn:Hp.
  - rewrite install_runs_installer by done.
    destruct (_ =? _)%Z; [done|]. intros Heq. simplify_eq. by eexists.
  - rewrite install_unsupported by done. intros Heq. simplify_eq. by eexists.
Qed.

Lemma downloading_names : names_identifier DownloadingPluginLoader.
Proof.
  intros project name version pmn env e env' p H Hp.
  unfold DownloadingPluginLoader, bind, try_except in H.
  unfold log at 1 in H. cbn beta iota in H.
  destruct (_install_external_plugin name version pmn _) as [[[]|e'] env1] eqn:Hinstall.
  - unfold log, ret in H. cbn beta iota in H. by eapply thirdparty_names.
  - apply install_names in Hinstall as [message ->]. simpl in H.
    unfold log, ret in H. left. by simplify_eq/=.
Qed.

Lemma dispatch_names loader :
  Forall names_identifier loader ->
  forall last project name version pmn env e env' (p : string),
    (forall e0 (p0 : string),
       last = Some e0 -> error_plugin e0 = Some p0 -> p0 = name \/ raised_by_import e0) ->
    dispatch loader last project name version pmn env = (Raise e, env') ->
    error_plugin e = Some p ->
    p = name \/ raised_by_import e.
Proof.
  intros Hall.
  induction Hall as [|l rest Hl Hrest IH]; intros last project name version pmn env e env' p
    Hlast H Hp; simpl in H.
  - destruct last as [e0|]; unfold raise in H; simplify_eq/=; eauto.
  - unfold try_except in H.
    destruct (l project name version pmn env) as [[m|e1] env1] eqn:Hrun; [done|].
    destruct (is_missing e1) eqn:Hmissing.
    + eapply IH; [|exact H|exact Hp].
      intros e0 p0 [= <-] Hp0. by eapply Hl.
    + simplify_eq. by eapply Hl.
Qed.

(** X1: the plugin exceptions the three loaders build
    ([MissingPluginException], [IncompatiblePluginException],
    [UnspecifiedPluginNameException]) carry the identifier the loader was
    asked for, not the module name derived from it: a plugin exception that
    comes out of a loader names that identifier unless the import of a module
    raised it, in which case it passes through as it is.  So it is for a
    dispatching loader built from loaders of which it holds. *)
Theorem X1_errors_name_the_identifier :
  names_identifier BuiltinPluginLoader
  /\ names_identifier ThirdPartyPluginLoader
  /\ names_identifier DownloadingPluginLoader
  /\ forall loader,
       Forall names_identifier loader -> names_identifier (DispatchingPluginLoader loader).
Proof.
  split; [apply builtin_names|]. split; [apply thirdparty_names|].
  split; [apply downloading_names|].
  intros loader Hall project name version pmn env e env' p H Hp.
  unfold DispatchingPluginLoader in H.
  eapply (dispatch_names loader Hall None); [done|exact H|exact Hp].
Qed.


(** X2: the third-party loader never looks at the project or at the
    version, and it looks at the module name only for a [vcs:]
    identifier. *)
Theorem X2_thirdparty_ignores project project' name version version' pmn pmn' env :
  ThirdPartyPluginLoader project name version pmn env
  = ThirdPartyPluginLoader project' name version' pmn env
  /\ (startswith name VCS_PLUGIN_PROTOCOL = false ->
      ThirdPartyPluginLoader project name version pmn env
      = ThirdPartyPluginLoader project' name version' pmn' env).
Proof.
  split; [done|]. intros Hvcs. unfold ThirdPartyPluginLoader. rewrite Hvcs.
  by destruct (startswith name PYPI_PLUGIN_PROTOCOL).
Qed.

(** X3: the builtin loader imports [pybuilder.plugins.<name>_plugin], or
    the module name it is given, after one debug record.  When that import
    fails, the [ImportError] becomes a [MissingPluginException] for the
    identifier; when it yields a module without a compatibility requirement,
    the module is returned and a second debug record names the imported
    module; any other exception of the import passes through as it is.  In
    each case logger and world are as the import left them. *)
Theorem X3_builtin_import project name version pmn env imported lg' w' :
  import_module (builtin_module_name name pmn)
    (logger env ++ [mkLog DEBUG "Trying to load builtin plugin '%s'" [AStr name]], world env)
  = (imported, (lg', w')) ->
  (forall message,
     imported = ImportError message ->
     BuiltinPluginLoader project name version pmn env
     = (Raise (MissingPluginException name message), mkEnv lg' w'))
  /\ (forall plugin_module,
        imported = Module_ plugin_module ->
        truthy (module_pyb_version plugin_module) = false ->
        BuiltinPluginLoader project name version pmn env
        = (Ok (Some plugin_module),
           mkEnv (lg' ++ [mkLog DEBUG "Found builtin plugin '%s'"
                            [AStr (builtin_module_name name pmn)]])
             w'))
  /\ (forall e,
        imported = ImportRaises e ->
        BuiltinPluginLoader project name version pmn env = (Raise e, mkEnv lg' w')).
Proof.
  intros Himport.
  unfold BuiltinPluginLoader, bind, log. fold (builtin_module_name name pmn).
  unfold _load_plugin, bind, importing, ret, raise. cbn [world logger]. rewrite Himport.
  split; [|split].
  - by intros message ->.
  - intros plugin_module -> Hfree.
    by rewrite check_plugin_version_unconstrained by done.
  - by intros e ->.
Qed.

(** X4: the installation never looks at the module name, and for an
    identifier without the [pypi:] protocol it does not look at the version
    either: a [vcs:] package reference is never given a version. *)
Theorem X4_install_ignores name version version' pmn pmn' env :
  _install_external_plugin name version pmn env
  = _install_external_plugin name version pmn' env
  /\ (startswith name PYPI_PLUGIN_PROTOCOL = false ->
      _install_external_plugin name version pmn env
      = _install_external_plugin name version' pmn' env).
Proof.
  split; [done|]. intros Hpypi. unfold _install_external_plugin. by rewrite Hpypi.
Qed.

Lemma downloading_installed project name version pmn env :
  has_protocol name = true ->
  installer_status name version (world env) = 0%Z ->
  DownloadingPluginLoader project name version pmn env
  = ThirdPartyPluginLoader project name version pmn
      (mkEnv (logger env ++ installed_log name version)
         (installer_world name version (world env))).
Proof.
  intros Hp Hrc. unfold DownloadingPluginLoader, bind, try_except.
  unfold log at 1. cbn beta iota.
  rewrite install_runs_installer by done. simpl. rewrite Hrc. simpl.
  unfold installed_log. by rewrite <- app_assoc.
Qed.

(** X5: when the installer exits with status 0, the downloading loader
    behaves as the third-party loader does in the world the installer left,
    after two info records; so a [vcs:] identifier without a module name is
    refused with [UnspecifiedPluginNameException] only after its package has
    been installed. *)
Theorem X5_downloading_after_install project name version pmn env :
  has_protocol name = true ->
  installer_status name version (world env) = 0%Z ->
  DownloadingPluginLoader project name version pmn env
  = ThirdPartyPluginLoader project name version pmn
      (mkEnv (logger env ++ installed_log name version)
         (installer_world name version (world env)))
  /\ (startswith name VCS_PLUGIN_PROTOCOL = true ->
      truthy pmn = false ->
      DownloadingPluginLoader project name version pmn env
      = (Raise (UnspecifiedPluginNameException name),
         mkEnv (logger env ++ installed_log name version)
           (installer_world name version (world env)))).
Proof.
  intros Hp Hrc. rewrite downloading_installed by done. split; [done|].
  intros Hvcs Hpmn. unfold ThirdPartyPluginLoader, bind, raise.
  by rewrite (vcs_not_pypi _ Hvcs), Hvcs, Hpmn.
Qed.

Lemma dispatch_singleton l last project name version pmn env :
  dispatch [l] last project name version pmn env = l project name version pmn env.
Proof.
  simpl. unfold try_except, raise.
  destruct (l project name version pmn env) as [[m|e] env1]; [done|].
  by destruct (is_missing e).
Qed.

Lemma dispatch_app_nonempty l rest post last project name version pmn env :
  dispatch ((l :: rest) ++ post) last project name version pmn env
  = match dispatch (l :: rest) last project name version pmn env with
    | (Raise e, env1) =>
        if is_missing e then dispatch post (Some e) project name version pmn env1
        else (Raise e, env1)
    | ok => ok
    end.
Proof.
  revert l last env. induction rest as [|l' rest IH]; intros l last env.
  - rewrite dispatch_singleton. simpl. unfold try_except.
    destruct (l project name version pmn env) as [[m|e] env1]; [done|].
    by destruct (is_missing e).
  - change (dispatch ((l :: l' :: rest) ++ post) last project name version pmn env)
      with (try_except (l project name version pmn)
              (fun e => if is_missing e
                        then Some (dispatch ((l' :: rest) ++ post) (Some e)
                                     project name version pmn)
                        else None) env).
    change (dispatch (l :: l' :: rest) last project name version pmn env)
      with (try_except (l project name version pmn)
              (fun e => if is_missing e
                        then Some (dispatch (l' :: rest) (Some e)
                                     project name version pmn)
                        else None) env).
    unfold try_except.
    destruct (l project name version pmn env) as [[m|e] env1]; [done|].
    destruct (is_missing e) eqn:He; [|by rewrite He].
    apply IH.
Qed.

(** X6: dispatching loaders compose.  A chain of one strategy is that
    strategy; a chain of two non-empty chains is the chain of their
    strategies; and an empty chain raises [TypeError] (it raises
    [last_problem], which is still [None]) without touching anything. *)
Theorem X6_dispatching_composes project name version pmn env :
  (forall l,
     DispatchingPluginLoader [l] project name version pmn env
     = l project name version pmn env)
  /\ (forall first_ second,
        first_ <> [] -> second <> [] ->
        DispatchingPluginLoader (first_ ++ second) project name version pmn env
        = DispatchingPluginLoader
            [DispatchingPluginLoader first_; DispatchingPluginLoader second]
            project name version pmn env)
  /\ DispatchingPluginLoader [] project name version pmn env
     = (Raise (TypeError "exceptions must derive from BaseException"), env).
Proof.
  split; [intros l; apply dispatch_singleton|]. split; [|done].
  intros [|l rest] [|l2 rest2] Hfirst Hsecond; try done.
  unfold DispatchingPluginLoader at 1 2.
  rewrite dispatch_app_nonempty.
  change (dispatch [DispatchingPluginLoader (l :: rest); DispatchingPluginLoader (l2 :: rest2)]
            None project name version pmn env)
    with (try_except (dispatch (l :: rest) None project name version pmn)
            (fun e => if is_missing e
                      then Some (dispatch [DispatchingPluginLoader (l2 :: rest2)] (Some e)
                                   project name version pmn)
                      else None) env).
  unfold try_except.
  destruct (dispatch (l :: rest) None project name version pmn env) as [[m|e] env1]; [done|].
  destruct (is_missing e); [|done].
  by rewrite dispatch_singleton.
Qed.


(** ** Graph assembly and the registry, further *)

Lemma register_unmarked injected candidate r :
  unmarked_candidate candidate = true ->
  register_candidate injected candidate r = (Ok tt, r).
Proof.
  unfold unmarked_candidate, register_candidate. intros H.
  apply andb_true_iff in H as [H Hinit]. apply andb_true_iff in H as [Htask Haction].
  apply negb_true_iff in Htask, Haction, Hinit.
  by rewrite Htask, Haction, Hinit.
Qed.

Lemma for_each_unmarked injected cs r :
  Forall (fun candidate => unmarked_candidate candidate = true) cs ->
  for_each cs (register_candidate injected) r = (Ok tt, r).
Proof.
  induction 1 as [|c cs Hc _ IH]; [done|].
  simpl. unfold bind. by rewrite register_unmarked.
Qed.

Lemma dir_None_unmarked :
  Forall (fun candidate => unmarked_candidate candidate = true) (candidates None).
Proof. unfold candidates, dir_None. simpl. repeat constructor. Qed.

(** X7: a module none of whose attributes carries a role marker
    contributes nothing: the assembler returns normally and logger, world,
    execution manager and plugin list are as before.  [None], which is what
    the downloading loader returns after a failed installation, is such a
    module. *)
Theorem X7_unmarked_module_contributes_nothing project_module r :
  (Forall (fun candidate => unmarked_candidate candidate = true) (candidates project_module) ->
   collect_tasks_and_actions_and_initializers project_module r = (Ok tt, r))
  /\ collect_tasks_and_actions_and_initializers None r = (Ok tt, r).
Proof.
  unfold collect_tasks_and_actions_and_initializers. split.
  - apply for_each_unmarked.
  - apply for_each_unmarked, dir_None_unmarked.
Qed.

Lemma register_candidate_contribution project_module candidate (r : @Reactor X recorder) :
  exists r',
    @register_candidate X recorder (harvest project_module) candidate r = (Ok tt, r')
    /\ @execution_manager X recorder r'
       = @execution_manager X recorder r
         ++ option_list (contribution project_module candidate).
Proof.
  unfold register_candidate, contribution, assembled_task.
  rewrite <- collect_task_dependencies_declared, <- harvest_entries. unfold entries.
  destruct (marked (TASK_ATTRIBUTE candidate)).
  - eexists. split; [reflexivity|]. simpl.
    by destruct (harvest project_module !! normalize_candidate_name candidate);
      simpl; rewrite ?app_nil_r.
  - destruct (marked (ACTION_ATTRIBUTE candidate)).
    + eexists. split; [reflexivity|]. done.
    + destruct (marked (INITIALIZER_ATTRIBUTE candidate)).
      * eexists. split; [reflexivity|]. done.
      * eexists. split; [reflexivity|]. simpl. by rewrite app_nil_r.
Qed.

Lemma for_each_contributions project_module cs (r : @Reactor X recorder) :
  exists r',
    for_each cs (@register_candidate X recorder (harvest project_module)) r = (Ok tt, r')
    /\ @execution_manager X recorder r'
       = @execution_manager X recorder r ++ omap (contribution project_module) cs.
Proof.
  revert r. induction cs as [|c cs IH]; intros r.
  - exists r. split; [done|]. by rewrite app_nil_r.
  - destruct (register_candidate_contribution project_module c r) as (r1 & Hc & Hr1).
    destruct (IH r1) as (r' & Hcs & Hr').
    exists r'. split.
    + simpl. unfold bind. by rewrite Hc.
    + rewrite Hr', Hr1. simpl.
      destruct (contribution project_module c); simpl; by rewrite <- app_assoc.
Qed.

Lemma contribution_unmarked project_module candidate :
  unmarked_candidate candidate
  = match contribution project_module candidate with
    | Some _ => false
    | None => true
    end.
Proof.
  unfold contribution, unmarked_candidate.
  destruct (marked (TASK_ATTRIBUTE candidate)); [done|].
  destruct (marked (ACTION_ATTRIBUTE candidate)); [done|].
  by destruct (marked (INITIALIZER_ATTRIBUTE candidate)).
Qed.

(** X8: run against a recording execution manager, the assembler registers
    for each candidate, in the order of the scan, at most one contribution,
    chosen by the first marker the candidate carries: a task if it is marked
    as a task, whatever else it is marked as; otherwise an action if marked as
    one; otherwise an initializer if marked as one.  The registrations are as
    many as the candidates that carry a marker. *)
Theorem X8_one_contribution_by_priority project_module (r : @Reactor X recorder) :
  exists r',
    @collect_tasks_and_actions_and_initializers X recorder project_module r = (Ok tt, r')
    /\ @execution_manager X recorder r'
       = @execution_manager X recorder r
         ++ omap (contribution project_module) (candidates project_module)
    /\ length (omap (contribution project_module) (candidates project_module))
       = length (filter (fun candidate => unmarked_candidate candidate = false)
                   (candidates project_module)).
Proof.
  destruct (for_each_contributions project_module (candidates project_module) r)
    as (r' & Hrun & Hem).
  exists r'. split; [exact Hrun|]. split; [exact Hem|].
  clear Hrun Hem.
  induction (candidates project_module) as [|c cs IH]; [done|].
  rewrite filter_cons.
  change (omap (contribution project_module) (c :: cs))
    with (match contribution project_module c with
          | Some g => g :: omap (contribution project_module) cs
          | None => omap (contribution project_module) cs
          end).
  pose proof (contribution_unmarked project_module c) as Hc.
  destruct (contribution project_module c) as [g|].
  - rewrite decide_True by done.
    cbn [length]. by f_equal.
  - rewrite decide_False by (by rewrite Hc).
    done.
Qed.




(** X10: the declared dependencies of a task are exactly what its
    [depends] entries say, in the order they say it: the list is the entries'
    contributions one after the other, a plain entry giving one dependency
    that is not optional, an [optional(...)] entry one optional dependency for
    each of its targets in their order; so there are as many dependencies as
    the entries have targets, and no dependency comes from anywhere else. *)
Theorem X10_declared_dependencies_exact candidate :
  collect_task_dependencies candidate
  = flat_map
      (fun d =>
         match d with
         | Plain t => [mkTaskDependency t false]
         | Optional ts => map (fun t => mkTaskDependency t true) ts
         end)
      (default [] (DEPENDS_ATTRIBUTE candidate))
  /\ length (collect_task_dependencies candidate)
     = sum_list (map (fun d => match d with Plain _ => 1 | Optional ts => length ts end)
                   (default [] (DEPENDS_ATTRIBUTE candidate)))
  /\ forall ds td,
       DEPENDS_ATTRIBUTE candidate = Some ds ->
       td ∈ collect_task_dependencies candidate
       <-> (Plain (td_target td) ∈ ds /\ td_optional td = false)
           \/ (exists ts, Optional ts ∈ ds /\ td_target td ∈ ts /\ td_optional td = true).
Proof.
  split; [apply collect_task_dependencies_declared|]. split.
  { rewrite collect_task_dependencies_declared. unfold declared_dependencies.
    induction (default [] (DEPENDS_ATTRIBUTE candidate)) as [|d ds IH]; [done|].
    cbn [flat_map map sum_list]. rewrite length_app, IH.
    destruct d as [t|ts]; [done|]. by rewrite length_map. }
  intros ds td Hds. rewrite collect_task_dependencies_declared.
  unfold declared_dependencies. rewrite Hds. simpl.
  rewrite list_elem_of_In, in_flat_map. split.
  - intros (d & Hd & Hin). apply list_elem_of_In in Hd, Hin. destruct d as [t|ts].
    + apply list_elem_of_singleton in Hin as ->. by left.
    + apply list_elem_of_fmap in Hin as (t & -> & Ht). right. by exists ts.
  - intros [[Hd Hopt]|(ts & Hd & Ht & Hopt)].
    + exists (Plain (td_target td)). split; [by apply list_elem_of_In|].
      apply list_elem_of_In, list_elem_of_singleton. destruct td. by simplify_eq/=.
    + exists (Optional ts). split; [by apply list_elem_of_In|].
      apply list_elem_of_In, list_elem_of_fmap. exists (td_target td).
      split; [|done]. destruct td. by simplify_eq/=.
Qed.


Lemma for_each_app {S A} (l1 l2 : list A) (body : A -> M S unit) (s : S) :
  for_each (l1 ++ l2) body s
  = match for_each l1 body s with
    | (Ok _, s1) => for_each l2 body s1
    | (Raise e, s1) => (Raise e, s1)
    end.
Proof.
  revert s. induction l1 as [|x l1 IH]; intros s; [done|].
  simpl. unfold bind. destruct (body x s) as [[[]|e] s1]; [apply IH|done].
Qed.

(** X11: the assembly stops at the first candidate whose registration
    raises: the error is the assembler's error, the candidates after it are
    not looked at, and what the candidates before it registered stays
    registered. *)
Theorem X11_assembly_stops_at_first_error project_module before candidate after r r1 e r2 :
  candidates project_module = before ++ candidate :: after ->
  for_each before (register_candidate (harvest project_module)) r = (Ok tt, r1) ->
  register_candidate (harvest project_module) candidate r1 = (Raise e, r2) ->
  collect_tasks_and_actions_and_initializers project_module r = (Raise e, r2).
Proof.
  intros Hcs Hbefore Hc. unfold collect_tasks_and_actions_and_initializers.
  rewrite Hcs, for_each_app, Hbefore. simpl. unfold bind. by rewrite Hc.
Qed.


(** X14: when the loader returns [None] for a plugin that is not in the
    list, the call returns normally, in the state the loader left: the plugin
    stays in the list and the assembly registers nothing with the execution
    manager. *)
Theorem X14_None_is_taken_for_a_module depth plugin version pmn r r' :
  plugin ∉ _plugins r ->
  load (import_at depth) plugin version pmn (entered plugin version r) = (Ok None, r') ->
  require_plugin depth plugin version pmn r = (Ok tt, r')
  /\ plugin ∈ _plugins r'.
Proof.
  intros Hnotin Hload.
  destruct (require_plugin_new depth plugin version pmn r Hnotin)
    as (added & Hplugins & _ & _ & _ & _ & Heq).
  unfold import_plugin in Hplugins, Heq.
  rewrite import_plugin_unfold, Hload in Hplugins, Heq.
  unfold collect_tasks_and_actions_and_initializers in Hplugins, Heq.
  rewrite for_each_unmarked in Hplugins, Heq by apply dir_None_unmarked.
  split; [exact Heq|]. simpl in Hplugins. rewrite Hplugins. set_solver.
Qed.

End Properties.

(** * Properties of the build lifecycle *)

Section LifecycleProperties.
Context `{P : OsPath} `{L : Lifecycle}.

(** X15: [verify_project_directory] returns exactly when the absolute
    project directory exists and is a directory and the descriptor joined to
    it exists and is a file; what it returns is that directory and that
    path. *)
Theorem X15_verify_project_directory project_directory project_descriptor found :
  verify_project_directory project_directory project_descriptor = inr found
  <-> found = (abspath project_directory,
               join (abspath project_directory) project_descriptor)
      /\ path_exists (abspath project_directory) = true
      /\ isdir (abspath project_directory) = true
      /\ path_exists (join (abspath project_directory) project_descriptor) = true
      /\ isfile (join (abspath project_directory) project_descriptor) = true.
Proof.
  unfold verify_project_directory.
  destruct (path_exists (abspath project_directory)); simpl;
    [|split; [done|by intros (_ & ? & _)]].
  destruct (isdir (abspath project_directory)); simpl;
    [|split; [done|by intros (_ & _ & ? & _)]].
  destruct (path_exists (join _ _)); simpl;
    [|split; [done|by intros (_ & _ & _ & ? & _)]].
  destruct (isfile (join _ _)); simpl;
    [|split; [done|by intros (_ & _ & _ & _ & ?)]].
  split; [by intros [= <-]|by intros [-> _]].
Qed.

Lemma create_execution_plan_initialized tasks environments b b1 :
  initialize environments b = (inr tt, b1) ->
  create_execution_plan tasks environments b
  = match validate b1.2 with
    | [] =>
        match tasks with
        | [] =>
            if given (default_task b1.2)
            then planned (as_list (default_task b1.2)) (properties_logged b1)
            else (inl (PyBuilderException "No default task given." []),
                  properties_logged b1)
        | _ => planned tasks (properties_logged b1)
        end
    | validation_messages =>
        (inl (ProjectValidationFailedException validation_messages), properties_logged b1)
    end.
Proof.
  unfold initialize, create_execution_plan, properties_logged, planned.
  intros Hinit.
  assert (forall (k : unit -> MB Build (Plan * list string)),
    bindB (match environments with
           | [] => retB tt
           | _ => logB INFO "Activated environments: %s"
                    [AStr (String.concat ", " environments)]
           end)
      (fun _ => bindB (execute_initializers environments) k) b
    = k tt b1) as Hstart.
  { intros k. unfold bindB in Hinit |- *.
    destruct environments; unfold retB, logB in Hinit |- *; cbn [fst snd] in Hinit |- *;
      by rewrite Hinit. }
  rewrite Hstart.
  unfold log_project_properties, logB, validate_project, bindB, retB. cbn [fst snd].
  destruct (validate b1.2) as [|m ms]; [|done]. simpl.
  destruct tasks as [|t ts]; cbn [fst snd].
  - destruct (given (default_task b1.2)); [|done].
    by destruct (plan_for _ _) as [[e|plan] b3].
  - by destruct (plan_for _ _) as [[e|plan] b3].
Qed.

(** X16: when the project does not validate once the initializers have
    run, [create_execution_plan] raises
    [ProjectValidationFailedException] with the messages; the properties have
    been logged by then, and the execution manager is not asked for a plan,
    whatever tasks were given. *)
Theorem X16_invalid_project_is_not_planned tasks environments b b1 :
  initialize environments b = (inr tt, b1) ->
  validate b1.2 <> [] ->
  create_execution_plan tasks environments b
  = (inl (ProjectValidationFailedException (validate b1.2)), properties_logged b1).
Proof.
  intros Hinit Hinvalid. rewrite (create_execution_plan_initialized _ _ _ _ Hinit).
  by destruct (validate b1.2).
Qed.

(** X17: for a project that validates, the plan is asked for the tasks
    given; when none is given, for the project's default task or tasks, which
    are then in the caller's task list too; when none is given and there is
    no default task, [PyBuilderException] is raised. *)
Theorem X17_default_task tasks environments b b1 :
  initialize environments b = (inr tt, b1) ->
  validate b1.2 = [] ->
  (tasks <> [] ->
   create_execution_plan tasks environments b = planned tasks (properties_logged b1))
  /\ (tasks = [] -> given (default_task b1.2) = true ->
      create_execution_plan tasks environments b
      = planned (as_list (default_task b1.2)) (properties_logged b1))
  /\ (tasks = [] -> given (default_task b1.2) = false ->
      create_execution_plan tasks environments b
      = (inl (PyBuilderException "No default task given." []), properties_logged b1)).
Proof.
  intros Hinit Hvalid. rewrite (create_execution_plan_initialized _ _ _ _ Hinit), Hvalid.
  split; [|split].
  - by destruct tasks.
  - by intros -> ->.
  - by intros -> ->.
Qed.

(** X18: [build] without tasks, for a project that validates and has a
    default task, announces and executes the default task or tasks: the list
    [create_execution_plan] extended is the list [build_execution_plan]
    announces.  [build] returns nothing, also when the plan has run. *)
Theorem X18_build_announces_the_default_task tasks environments b b1 execution_plan b3 :
  given tasks = false ->
  initialize environments b = (inr tt, b1) ->
  validate b1.2 = [] ->
  given (default_task b1.2) = true ->
  plan_for (as_list (default_task b1.2)) (properties_logged b1) = (inr execution_plan, b3) ->
  build tasks environments b
  = match execute_execution_plan execution_plan
            (announced (as_list (default_task b1.2)) execution_plan b3) with
    | (inr _, b4) => (inr tt, b4)
    | (inl e, b4) => (inl e, b4)
    end
  /\ last (announced (as_list (default_task b1.2)) execution_plan b3).1
     = Some (announcement (as_list (default_task b1.2))).
Proof.
  intros Htasks Hinit Hvalid Hdefault Hplan. split.
  - unfold build. rewrite Htasks. simpl negb. cbn iota.
    unfold bindB at 1.
    rewrite (create_execution_plan_initialized _ _ _ _ Hinit), Hvalid, Hdefault.
    unfold planned. rewrite Hplan.
    unfold build_execution_plan, announced, announcement, bindB, logB, retB.
    cbn [fst snd].
    destruct (as_list (default_task b1.2)) as [|t [|t' ts]];
      cbn [fst snd]; rewrite <- ?app_assoc; simpl;
      by destruct (execute_execution_plan _ _) as [[e|summaries] b4].
  - unfold announced. cbn [fst].
    match goal with
    | |- last (?l ++ [?r1; ?r2; ?r3; ?r4]) = _ =>
        change (l ++ [r1; r2; r3; r4]) with (l ++ ([r1; r2; r3] ++ [r4]))
    end.
    rewrite app_assoc. apply last_snoc.
Qed.

Lemma string_app_nil_r (s : string) : s +:+ "" = s.
Proof. induction s as [|c s IH]; [done|]. unfold String.app in *. simpl. by rewrite IH. Qed.

Lemma string_app_assoc (a b c : string) : (a +:+ b) +:+ c = a +:+ b +:+ c.
Proof.
  induction a as [|x a IH]; [done|]. unfold String.app in *. simpl. by rewrite IH.
Qed.

Lemma foldl_lines (line : string -> string) (keys : list string) (start : string) :
  foldl (fun formatted key => formatted +:+ line key) start keys
  = start +:+ foldr (fun key rest => line key +:+ rest) "" keys.
Proof.
  revert start. induction keys as [|k keys IH]; intros start; simpl.
  - by rewrite string_app_nil_r.
  - by rewrite IH, string_app_assoc.
Qed.

(** X19: [log_project_properties] writes one debug record and changes
    nothing else; its text has one line for each property of the project,
    in ascending order of the keys. *)
Theorem X19_properties_logged_in_key_order b :
  log_project_properties b
  = (inr tt,
     (b.1 ++ [mkLog DEBUG "Project properties: %s"
                [AStr (foldr (fun key rest => property_line b.2 key +:+ rest) ""
                         (sorted (property_names b.2)))]],
      b.2))
  /\ Sorted String.le (sorted (property_names b.2))
  /\ sorted (property_names b.2) ≡ₚ property_names b.2.
Proof.
  split; [|split].
  - unfold log_project_properties, logB. cbn [fst snd].
    assert (foldl (fun formatted key =>
                     formatted +:+ newline +:+ percent_40s key +:+ " : "
                     +:+ get_property key b.2)
              "" (sorted (property_names b.2))
            = foldr (fun key rest => property_line b.2 key +:+ rest) ""
                (sorted (property_names b.2))) as ->; [|done].
    exact (foldl_lines (property_line b.2) (sorted (property_names b.2)) "").
  - apply Sorted_merge_sort. apply _.
  - apply merge_sort_Permutation.
Qed.

End LifecycleProperties.


(** * The scenarios, run *)

Import Scenario.

(** C1, as stated, fails: for [pypi:example-plugin] without a version, with
    nothing importable and an installer that exits with status 1, the chain
    that ends with the downloading loader raises no
    [MissingPluginException]; it returns [None]. *)
Lemma C1_counterexample :
  installer_status (X:=tool) "pypi:example-plugin" None offline = 1%Z
  /\ (DispatchingPluginLoader default_chain None "pypi:example-plugin" None None
        (env_of offline)).1 = Ok None
  /\ ~ exists message env',
         DispatchingPluginLoader default_chain None "pypi:example-plugin" None None
           (env_of offline)
         = (Raise (MissingPluginException "pypi:example-plugin" message), env').
Proof.
  split; [by vm_compute|]. split; [by vm_compute|].
  intros (message & env' & H).
  apply (f_equal fst) in H. vm_compute in H. discriminate.
Qed.

Lemma C1_witness :
  startswith "pypi:example-plugin" PYPI_PLUGIN_PROTOCOL = true
  /\ installer_status (X:=tool) "pypi:example-plugin" None offline <> 0%Z
  /\ DownloadingPluginLoader None "pypi:example-plugin" None None (env_of offline)
     = (Ok None,
        @mkEnv tool (failed_download_log (X:=tool) "pypi:example-plugin" None offline)
          (installer_world (X:=tool) "pypi:example-plugin" None offline)).
Proof.
  assert (installer_status (X:=tool) "pypi:example-plugin" None offline <> 0%Z) as Hrc
    by (vm_compute; discriminate).
  split; [reflexivity|]. split; [exact Hrc|].
  exact (proj1 (proj2 (C1_failed_install_is_logged (X:=tool) None "pypi:example-plugin"
                         None None (env_of offline) eq_refl eq_refl Hrc))).
Defined.

(** No module of [no_code] requires a plugin. *)
Lemma no_code_requires_nothing : requires_nothing (C:=no_code).
Proof. intros name w. reflexivity. Qed.



(** C3, as stated, fails: the builtin plugin [outer] calls
    [use_plugin("inner")] when it is imported and is then refused by the
    version gate.  The load raises and [require_plugin] re-raises the error,
    but the list, empty before the call, holds [inner] after it. *)
Lemma C3_counterexample :
  ("outer" ∉ _plugins (new_reactor with_nested))
  /\ (exists r',
        load_or_assembly_raises (C:=nested_code) 1 "outer" None None
          (new_reactor with_nested)
          (IncompatiblePluginException "outer"
             (mkSpecifierSet ">=2.0,<3.0" true) (mkVersion "1.9.0")) r')
  /\ (require_plugin (C:=nested_code) 1 "outer" None None (new_reactor with_nested)).1
     = Raise (IncompatiblePluginException "outer"
                (mkSpecifierSet ">=2.0,<3.0" true) (mkVersion "1.9.0"))
  /\ _plugins (new_reactor with_nested) = []
  /\ _plugins
       (require_plugin (C:=nested_code) 1 "outer" None None (new_reactor with_nested)).2
     = ["inner"].
Proof.
  split; [apply not_elem_of_nil|]. split.
  { eexists. left. apply outcome_split. vm_compute. reflexivity. }
  repeat split; vm_compute; reflexivity.
Qed.

Lemma C3_witness :
  ("vcs:example" ∉ _plugins (new_reactor offline))
  /\ (require_plugin (C:=no_code) 0 "vcs:example" None None (new_reactor offline)).1
     = Raise (UnspecifiedPluginNameException "vcs:example")
  /\ _plugins (require_plugin (C:=no_code) 0 "vcs:example" None None (new_reactor offline)).2
     = []
  /\ (require_plugin (C:=no_code) 0 "nameless" None None (strict_reactor with_nameless)).1
     = Raise (CollaboratorError "invalid task name")
  /\ (require_plugin (C:=nested_code) 1 "outer" None None (new_reactor with_nested)).1
     = Raise (IncompatiblePluginException "outer"
                (mkSpecifierSet ">=2.0,<3.0" true) (mkVersion "1.9.0")).
Proof.
  assert (forall p w, p ∉ _plugins (new_reactor w)) as Hnew
    by (intros p w; apply not_elem_of_nil).
  assert (forall p w, p ∉ _plugins (strict_reactor w)) as Hstrict
    by (intros p w; apply not_elem_of_nil).
  split; [apply Hnew|].
  assert (exists r', load_or_assembly_raises (C:=no_code) 0 "vcs:example" None None
                       (new_reactor offline)
                       (UnspecifiedPluginNameException "vcs:example") r')
    as [r' Hload].
  { eexists. left. apply outcome_split. vm_compute. reflexivity. }
  destruct (C3_failed_plugin_is_taken_out _ _ _ _ _ _ _ (Hnew _ _) Hload)
    as (added & _ & _ & _ & _ & _ & Hout).
  specialize (Hout no_code_requires_nothing).
  split; [exact (f_equal fst Hout)|].
  split; [exact (f_equal (fun run => _plugins run.2) Hout)|].
  assert (exists r', load_or_assembly_raises (C:=no_code) 0 "nameless" None None
                       (strict_reactor with_nameless)
                       (CollaboratorError "invalid task name") r')
    as [r'' Hassembly].
  { eexists. right. exists (Some nameless_module). eexists. split.
    - apply outcome_split. vm_compute. reflexivity.
    - apply outcome_split. vm_compute. reflexivity. }
  destruct (C3_failed_plugin_is_taken_out _ _ _ _ _ _ _ (Hstrict _ _) Hassembly)
    as (added' & _ & _ & _ & _ & Hout' & _).
  split; [exact (f_equal fst Hout')|].
  assert (exists r', load_or_assembly_raises (C:=nested_code) 1 "outer" None None
                       (new_reactor with_nested)
                       (IncompatiblePluginException "outer"
                          (mkSpecifierSet ">=2.0,<3.0" true) (mkVersion "1.9.0")) r')
    as [r3 Hnested].
  { eexists. left. apply outcome_split. vm_compute. reflexivity. }
  destruct (C3_failed_plugin_is_taken_out _ _ _ _ _ _ _ (Hnew _ _) Hnested)
    as (added'' & _ & _ & _ & _ & Hout'' & _).
  exact (f_equal fst Hout'').
Defined.

Lemma C4_witness :
  (DispatchingPluginLoader default_chain None "example" None None (env_of with_example)).1
  = Ok (Some plain_module)
  /\ (DispatchingPluginLoader [BuiltinPluginLoader; ThirdPartyPluginLoader]
        None "example" None None (env_of offline)).1
     = Raise (MissingPluginException "example" "No module named example").
Proof.
  split.
  - assert (fst <$> fall_through [BuiltinPluginLoader] None None "example" None None
                      (env_of with_example)
            = Some (Some (MissingPluginException "example"
                            "No module named pybuilder.plugins.example_plugin")))
      as Hpre by (vm_compute; reflexivity).
    apply fall_through_split in Hpre.
    match type of Hpre with
    | _ = Some (_, ?env1) =>
        assert (ThirdPartyPluginLoader None "example" None None env1
                = (Ok (Some plain_module),
                   (ThirdPartyPluginLoader None "example" None None env1).2)) as Hl
          by (apply outcome_split; vm_compute; reflexivity)
    end.
    refine (f_equal fst
              (proj1 (C4_dispatch_in_order [BuiltinPluginLoader] ThirdPartyPluginLoader
                        [DownloadingPluginLoader] _ _ _ _ _ _ _ _ _ Hpre Hl) _)).
    intros e He. discriminate.
  - assert (fst <$> fall_through [BuiltinPluginLoader] None None "example" None None
                      (env_of offline)
            = Some (Some (MissingPluginException "example"
                            "No module named pybuilder.plugins.example_plugin")))
      as Hpre by (vm_compute; reflexivity).
    apply fall_through_split in Hpre.
    match type of Hpre with
    | _ = Some (_, ?env1) =>
        assert (ThirdPartyPluginLoader None "example" None None env1
                = (Raise (MissingPluginException "example" "No module named example"),
                   (ThirdPartyPluginLoader None "example" None None env1).2)) as Hl
          by (apply outcome_split; vm_compute; reflexivity)
    end.
    exact (f_equal fst
             (proj2 (C4_dispatch_in_order [BuiltinPluginLoader] ThirdPartyPluginLoader
                       [] _ _ _ _ _ _ _ _ _ Hpre Hl) _ eq_refl eq_refl)).
Defined.

Lemma C5_witness :
  (ThirdPartyPluginLoader None "example" None None (env_of with_gated_builtin)).1
  = Ok (Some plain_module)
  /\ (DispatchingPluginLoader default_chain None "example" None None
        (env_of with_gated_builtin)).1
     = Raise (IncompatiblePluginException "example"
                (mkSpecifierSet ">=2.0,<3.0" true) (mkVersion "1.9.0")).
Proof.
  split; [vm_compute; reflexivity|].
  assert (BuiltinPluginLoader None "example" None None (env_of with_gated_builtin)
          = (Raise (IncompatiblePluginException "example"
                      (mkSpecifierSet ">=2.0,<3.0" true) (mkVersion "1.9.0")),
             (BuiltinPluginLoader None "example" None None (env_of with_gated_builtin)).2))
    as Hl by (apply outcome_split; vm_compute; reflexivity).
  exact (f_equal fst
           (proj1 (C5_other_error_aborts [] BuiltinPluginLoader
                     [ThirdPartyPluginLoader; DownloadingPluginLoader] []
                     _ _ _ _ _ _ _ _ _ eq_refl Hl eq_refl))).
Defined.

(** C6, as stated, fails: for [vcs:example] without a module name the
    builtin loader attempts an import and raises [MissingPluginException]; the
    reactor's chain does raise [UnspecifiedPluginNameException], but only
    after that import attempt. *)
Lemma C6_counterexample :
  (BuiltinPluginLoader None "vcs:example" None None (env_of offline)).1
  = Raise (MissingPluginException "vcs:example"
             "No module named pybuilder.plugins.vcs:example_plugin")
  /\ (DispatchingPluginLoader default_chain None "vcs:example" None None (env_of offline)).1
     = Raise (UnspecifiedPluginNameException "vcs:example")
  /\ import_attempts
       (world (DispatchingPluginLoader default_chain None "vcs:example" None None
                 (env_of offline)).2)
     = ["pybuilder.plugins.vcs:example_plugin"].
Proof. repeat split; vm_compute; reflexivity. Qed.

Lemma C6_witness :
  startswith "vcs:example" VCS_PLUGIN_PROTOCOL = true
  /\ ThirdPartyPluginLoader None "vcs:example" None None (env_of offline)
     = (Raise (UnspecifiedPluginNameException "vcs:example"), env_of offline).
Proof.
  split; [reflexivity|].
  exact (proj1 (C6_thirdparty_requires_module_name (X:=tool) None "vcs:example" None None
                  (env_of offline) eq_refl eq_refl)).
Defined.

Lemma C7_witness :
  contains (Externals:=tool) (mkSpecifierSet ">=2.0,<3.0" true) (mkVersion "1.9.0") = false
  /\ _check_plugin_version plain_module "example" (env_of with_gated_builtin)
     = (Ok tt, env_of with_gated_builtin)
  /\ _check_plugin_version gated_module "example" (env_of with_gated_builtin)
     = (Raise (IncompatiblePluginException "example"
                 (mkSpecifierSet ">=2.0,<3.0" true) (mkVersion "1.9.0")),
        env_of with_gated_builtin).
Proof.
  split; [by vm_compute|]. split.
  - exact (proj1 (C7_version_gate (X:=tool) plain_module "example"
                    (env_of with_gated_builtin)) eq_refl).
  - refine (proj1 (proj2 (C7_version_gate (X:=tool) gated_module "example"
                            (env_of with_gated_builtin)) eq_refl _ _ eq_refl));
      by vm_compute.
Defined.

Lemma C8_witness :
  (require_plugin (C:=no_code) 0 "example" None None (new_reactor with_example)).1 = Ok tt
  /\ require_plugin (C:=no_code) 0 "example" (Some "==1.0") None
       (require_plugin (C:=no_code) 0 "example" None None (new_reactor with_example)).2
     = (Ok tt, (require_plugin (C:=no_code) 0 "example" None None
                  (new_reactor with_example)).2).
Proof.
  assert (require_plugin (C:=no_code) 0 "example" None None (new_reactor with_example)
          = (Ok tt, (require_plugin (C:=no_code) 0 "example" None None
                       (new_reactor with_example)).2))
    as Hfirst by (apply outcome_split; vm_compute; reflexivity).
  split; [exact (f_equal fst Hfirst)|].
  exact (proj2 (C8_require_plugin_idempotent (C:=no_code) 0 "example" None None
                  (new_reactor with_example))
           0 _ (Some "==1.0") None Hfirst).
Defined.

Lemma C9_witness :
  exists r',
    collect_tasks_and_actions_and_initializers (Some build_module) (new_reactor offline)
    = (Ok tt, r')
    /\ map (fun t => (task_name t, task_dependencies t))
         (registered_tasks (execution_manager r'))
       = [(Some "compile", []);
          (Some "package",
           [mkTaskDependency (ByName "prepare") false;
            mkTaskDependency (ByName "lint") true;
            mkTaskDependency (ByName "docs") true;
            mkTaskDependency (ByRef None (Some "compile")) false;
            mkTaskDependency (ByRef None (Some "verify")) true]);
          (Some "verify", [])].
Proof.
  destruct (C9_declared_then_injected (X:=tool) (Some build_module) (new_reactor offline))
    as (r' & Hrun & Htasks & _).
  exists r'. split; [exact Hrun|].
  rewrite Htasks. by vm_compute.
Defined.

Lemma C10_witness :
  installation_fails (X:=tool) "pypi:example-plugin" None offline = true
  /\ installation_fails (X:=tool) "example" None with_example = true
  /\ (DownloadingPluginLoader None "pypi:example-plugin" None None (env_of offline)).1
     = Ok None
  /\ (DownloadingPluginLoader None "example" None None (env_of with_example)).1 = Ok None.
Proof.
  split; [by vm_compute|]. split; [by vm_compute|]. split.
  - destruct (C10_failed_download_returns_None (X:=tool) None "pypi:example-plugin"
                None None (env_of offline) eq_refl) as (env' & -> & _). done.
  - destruct (C10_failed_download_returns_None (X:=tool) None "example"
                None None (env_of with_example) eq_refl) as (env' & -> & _). done.
Defined.

(** * The further properties, run *)

Lemma X1_witness : names_identifier (X:=tool) (DispatchingPluginLoader default_chain).
Proof.
  destruct (X1_errors_name_the_identifier (X:=tool)) as (Hb & Ht & Hd & Hchain).
  apply Hchain. unfold default_chain.
  apply Forall_cons. split; [exact Hb|].
  apply Forall_cons. split; [exact Ht|].
  apply Forall_cons. split; [exact Hd|]. apply Forall_nil_2.
Defined.

Lemma X2_witness :
  startswith "pypi:example" VCS_PLUGIN_PROTOCOL = false
  /\ ThirdPartyPluginLoader None "pypi:example" None None (env_of with_example)
     = ThirdPartyPluginLoader (X:=tool) (Some tt) "pypi:example" (Some "==1.0")
         (Some "other") (env_of with_example).
Proof.
  split; [reflexivity|].
  exact (proj2 (X2_thirdparty_ignores (X:=tool) None (Some (tt : @Project tool))
                  "pypi:example" None
                  (Some "==1.0") None (Some "other") (env_of with_example)) eq_refl).
Defined.

Lemma X3_witness :
  (BuiltinPluginLoader None "example" None None (env_of offline)).1
  = Raise (MissingPluginException "example"
             "No module named pybuilder.plugins.example_plugin")
  /\ (BuiltinPluginLoader None "example" None None (env_of with_builtin)).1
     = Ok (Some plain_module)
  /\ (BuiltinPluginLoader None "" None (Some "") (env_of offline)).1
     = Raise (MissingPluginException "" "No module named pybuilder.plugins._plugin").
Proof.
  assert (forall name pmn w,
            import_module (Externals:=tool) (builtin_module_name name pmn)
              (logger (env_of w)
               ++ [mkLog DEBUG "Trying to load builtin plugin '%s'" [AStr name]],
               world (env_of w))
            = (if String.eqb (builtin_module_name name pmn) ""
               then ImportRaises (ValueError "Empty module name")
               else match list_find (fun entry => entry.1 = builtin_module_name name pmn)
                            (importable w) with
                    | Some (_, (_, m)) => Module_ m
                    | None => ImportError ("No module named " +:+ builtin_module_name name pmn)
                    end,
               ([mkLog DEBUG "Trying to load builtin plugin '%s'" [AStr name]],
                mkHost (importable w) (pip_exit w) (pip_output w) (pip_provides w)
                  (import_attempts w ++ [builtin_module_name name pmn]) (commands_run w))))
    as Himport by reflexivity.
  split; [|split].
  - exact (f_equal fst
             (proj1 (X3_builtin_import (X:=tool) None "example" None None (env_of offline)
                       _ _ _ (Himport "example" None offline)) _ eq_refl)).
  - exact (f_equal fst
             (proj1 (proj2 (X3_builtin_import (X:=tool) None "example" None None
                              (env_of with_builtin) _ _ _
                              (Himport "example" None with_builtin)))
                plain_module eq_refl eq_refl)).
  - exact (f_equal fst
             (proj1 (X3_builtin_import (X:=tool) None "" None (Some "") (env_of offline)
                       _ _ _ (Himport "" (Some "") offline)) _ eq_refl)).
Defined.

Lemma X4_witness :
  startswith "vcs:repo" PYPI_PLUGIN_PROTOCOL = false
  /\ _install_external_plugin "vcs:repo" (Some "==1.0") None (env_of online)
     = _install_external_plugin "vcs:repo" None (Some "module") (env_of online).
Proof.
  split; [reflexivity|].
  exact (proj2 (X4_install_ignores (X:=tool) "vcs:repo" (Some "==1.0") None None
                  (Some "module") (env_of online)) eq_refl).
Defined.

Lemma X5_witness :
  installer_status (X:=tool) "pypi:example" None online = 0%Z
  /\ (DownloadingPluginLoader None "pypi:example" None None (env_of online)).1
     = Ok (Some plain_module)
  /\ (DownloadingPluginLoader None "vcs:example" None None (env_of online)).1
     = Raise (UnspecifiedPluginNameException "vcs:example")
  /\ commands_run
       (world (DownloadingPluginLoader None "vcs:example" None None (env_of online)).2)
     = [["pip"; "install"; "--upgrade"; "example"]].
Proof.
  split; [reflexivity|]. split; [|split].
  - etrans.
    + exact (f_equal fst
               (proj1 (X5_downloading_after_install (X:=tool) None "pypi:example" None None
                         (env_of online) eq_refl eq_refl))).
    + vm_compute. reflexivity.
  - exact (f_equal fst
             (proj2 (X5_downloading_after_install (X:=tool) None "vcs:example" None None
                       (env_of online) eq_refl eq_refl) eq_refl eq_refl)).
  - rewrite (proj2 (X5_downloading_after_install (X:=tool) None "vcs:example" None None
                      (env_of online) eq_refl eq_refl) eq_refl eq_refl).
    vm_compute. reflexivity.
Defined.

Lemma X6_witness :
  DispatchingPluginLoader default_chain None "example" None None (env_of with_example)
  = DispatchingPluginLoader
      [DispatchingPluginLoader [BuiltinPluginLoader];
       DispatchingPluginLoader [ThirdPartyPluginLoader; DownloadingPluginLoader]]
      None "example" None None (env_of with_example).
Proof.
  refine (proj1 (proj2 (X6_dispatching_composes (X:=tool) None "example" None None
                          (env_of with_example)))
            [BuiltinPluginLoader] [ThirdPartyPluginLoader; DownloadingPluginLoader] _ _);
    discriminate.
Defined.

Lemma X7_witness :
  collect_tasks_and_actions_and_initializers (Some plain_module) (new_reactor offline)
  = (Ok tt, new_reactor offline).
Proof.
  apply (proj1 (X7_unmarked_module_contributes_nothing (Some plain_module)
                  (new_reactor offline))).
  constructor.
Defined.


Lemma X10_witness :
  collect_task_dependencies package
  = [mkTaskDependency (ByName "prepare") false;
     mkTaskDependency (ByName "lint") true;
     mkTaskDependency (ByName "docs") true]
  /\ mkTaskDependency (ByName "lint") true ∈ collect_task_dependencies package.
Proof.
  split.
  - exact (proj1 (X10_declared_dependencies_exact package)).
  - apply (proj2 (proj2 (X10_declared_dependencies_exact package)) _ _ eq_refl).
    right. exists [ByName "lint"; ByName "docs"]. split; [|split; [|done]].
    + apply list_elem_of_In. simpl. auto.
    + apply list_elem_of_here.
Defined.

Lemma X11_witness :
  (collect_tasks_and_actions_and_initializers (Some half_module) (strict_reactor offline)).1
  = Raise (CollaboratorError "invalid task name")
  /\ map task_name
       (registered_tasks
          (execution_manager
             (collect_tasks_and_actions_and_initializers (Some half_module)
                (strict_reactor offline)).2))
     = [Some "first"].
Proof.
  split; [|vm_compute; reflexivity].
  pose (injected := harvest (Some half_module)).
  pose (r1 := (for_each [task "first" None None]
                 (@register_candidate tool strict_recorder injected)
                 (strict_reactor offline)).2).
  assert (for_each [task "first" None None]
            (@register_candidate tool strict_recorder injected) (strict_reactor offline)
          = (Ok tt, r1)) as Hbefore
    by (apply outcome_split; vm_compute; reflexivity).
  assert (@register_candidate tool strict_recorder injected
            (mkCandidate None None (Some true) None None None
               None None None None None None None) r1
          = (Raise (CollaboratorError "invalid task name"),
             (@register_candidate tool strict_recorder injected
                (mkCandidate None None (Some true) None None None
                   None None None None None None None) r1).2)) as Hc
    by (apply outcome_split; vm_compute; reflexivity).
  exact (f_equal fst
           (X11_assembly_stops_at_first_error (X:=tool) (E:=strict_recorder)
              (Some half_module) [task "first" None None] _ [task "third" None None]
              (strict_reactor offline) r1 _ _ eq_refl Hbefore Hc)).
Defined.


Lemma X14_witness :
  exists r',
    require_plugin (C:=no_code) 0 "pypi:example-plugin" None None (new_reactor offline)
    = (Ok tt, r')
    /\ "pypi:example-plugin" ∈ _plugins r'.
Proof.
  eexists.
  apply (X14_None_is_taken_for_a_module (C:=no_code) 0 "pypi:example-plugin" None None
           (new_reactor offline)); [apply not_elem_of_nil|].
  apply outcome_split. vm_compute. reflexivity.
Defined.

Lemma X15_witness :
  verify_project_directory (H:=demo_paths) "/work" "build.py"
  = inr ("/work", "/work/build.py").
Proof.
  apply (proj2 (X15_verify_project_directory (P:=demo_paths) "/work" "build.py" _)).
  repeat split; vm_compute; reflexivity.
Defined.

Lemma X16_witness :
  (create_execution_plan (L:=demo_lifecycle) ["publish"] []
     (demo_build ["Missing dependency"] NoNames)).1
  = inl (ProjectValidationFailedException ["Missing dependency"]).
Proof.
  refine (f_equal fst
            (X16_invalid_project_is_not_planned (L:=demo_lifecycle) ["publish"] []
               (demo_build ["Missing dependency"] NoNames) _ eq_refl _)).
  discriminate.
Defined.

Lemma X17_witness :
  (create_execution_plan (L:=demo_lifecycle) ["publish"] []
     (demo_build [] (OneName "analyze"))).1
  = inr (["publish"], ["publish"])
  /\ (create_execution_plan (L:=demo_lifecycle) [] [] (demo_build [] (OneName "analyze"))).1
     = inr (["analyze"], ["analyze"])
  /\ (create_execution_plan (L:=demo_lifecycle) [] [] (demo_build [] NoNames)).1
     = inl (PyBuilderException "No default task given." []).
Proof.
  split; [|split].
  - refine (f_equal fst
              (proj1 (X17_default_task (L:=demo_lifecycle) ["publish"] []
                        (demo_build [] (OneName "analyze")) _ eq_refl eq_refl) _)).
    discriminate.
  - exact (f_equal fst
             (proj1 (proj2 (X17_default_task (L:=demo_lifecycle) [] []
                              (demo_build [] (OneName "analyze")) _ eq_refl eq_refl))
                eq_refl eq_refl)).
  - exact (f_equal fst
             (proj2 (proj2 (X17_default_task (L:=demo_lifecycle) [] []
                              (demo_build [] NoNames) _ eq_refl eq_refl))
                eq_refl eq_refl)).
Defined.

Lemma X18_witness :
  (build (L:=demo_lifecycle) NoNames [] (demo_build [] (OneName "analyze"))).1 = inr tt
  /\ demo_executed
       (build (L:=demo_lifecycle) NoNames [] (demo_build [] (OneName "analyze"))).2.2
     = [["analyze"]].
Proof.
  pose proof (X18_build_announces_the_default_task (L:=demo_lifecycle) NoNames []
                (demo_build [] (OneName "analyze")) _ _ _
                eq_refl eq_refl eq_refl eq_refl eq_refl) as [Hbuild _].
  rewrite Hbuild. split; reflexivity.
Defined.

Lemma X19_witness :
  sorted ["verbose"; "basedir"] = ["basedir"; "verbose"]
  /\ (log_project_properties (L:=demo_lifecycle) (demo_build [] NoNames)).1 = inr tt.
Proof.
  split; [vm_compute; reflexivity|].
  exact (f_equal fst
           (proj1 (X19_properties_logged_in_key_order (L:=demo_lifecycle)
                     (demo_build [] NoNames)))).
Defined.
